(** * ORTModule graph execution manager: export cache, skip-check policy,
      graph-builder and session configuration.

    Shallow embedding of
    [orttraining/python/training/ortmodule/_graph_execution_manager.py].
    Python integers are [Z] (bit operations through [Z.land]/[Z.lor]),
    [self] is an explicit record threaded through a state-and-exception
    monad, and the collaborators that live in other modules ([torch],
    [onnx], [_io], [_utils], the pybind state [C]) are gathered in one
    record of functions. *)

From Stdlib Require Import ZArith String List Bool Lia.
From stdpp Require Import base option list strings pretty gmap.

Local Open Scope string_scope.
Local Open Scope Z_scope.

(** ** Exceptions and the state-and-exception monad *)

(** The exception classes the manager raises itself, and [External] for
    whatever a collaborator raises.  [wrap_exception cls e] builds an
    instance of [cls] around [e]. *)
Inductive exn : Type :=
| ORTModuleDeviceException (inner : exn)
| ORTModuleONNXModelException (inner : exn)
| ORTModuleTorchModelException (inner : exn)
| RuntimeError (msg : string)
| AssertionError (msg : string)
| AttributeError (msg : string)
| TypeError (msg : string)
| KeyError (key : string)
| External (text : string).

Definition wrap_exception (cls : exn -> exn) (e : exn) : exn := cls e.

Inductive outcome (A : Type) : Type :=
| Returns (a : A)
| Raises (e : exn).
Arguments Returns {A} a.
Arguments Raises {A} e.

(** A Python method over a store [S]: the store it leaves is kept on both
    exits, since a raised exception does not undo assignments. *)
Definition M (S A : Type) : Type := S -> outcome A * S.

Definition ret {S A} (a : A) : M S A := fun s => (Returns a, s).
Definition raise {S A} (e : exn) : M S A := fun s => (Raises e, s).
Definition bind {S A B} (c : M S A) (k : A -> M S B) : M S B :=
  fun s => match c s with
           | (Returns a, s') => k a s'
           | (Raises e, s') => (Raises e, s')
           end.
Definition get {S} : M S S := fun s => (Returns s, s).
Definition gets {S A} (f : S -> A) : M S A := fun s => (Returns (f s), s).
Definition modify {S} (f : S -> S) : M S unit := fun s => (Returns tt, f s).

(** [try: c except Exception as e: raise h e] *)
Definition try_except {S A} (c : M S A) (h : exn -> exn) : M S A :=
  fun s => match c s with
           | (Returns a, s') => (Returns a, s')
           | (Raises e, s') => (Raises (h e), s')
           end.

(** stdpp's monad notations: [x ← c; k] and [c;; k]. *)
#[global] Instance M_ret {S} : MRet (M S) := fun A a => ret a.
#[global] Instance M_bind {S} : MBind (M S) := fun A B k c => bind c k.

Definition when {S} (b : bool) (c : M S unit) : M S unit :=
  if b then c else ret tt.

(** ** [_SkipCheck]: the [IntFlag] of checks that may be skipped *)

Module SkipCheck.

(** An [IntFlag] member is its integer value. *)
Definition _SkipCheck : Type := Z.

Definition SKIP_CHECK_DISABLED : _SkipCheck := 1.
Definition SKIP_CHECK_DEVICE : _SkipCheck := 2.
Definition SKIP_CHECK_BUILD_GRADIENT : _SkipCheck := 4.
Definition SKIP_CHECK_EXECUTION_AGENT : _SkipCheck := 8.

(** [other in self] of [enum.Flag]:
    [other._value_ & self._value_ == other._value_]. *)
Definition contains (other self : _SkipCheck) : bool :=
  Z.land other self =? other.

(** [_SkipCheck.SKIP_CHECK_DISABLED in self] *)
Definition is_disabled (self : _SkipCheck) : bool :=
  contains SKIP_CHECK_DISABLED self.

(** [not _SkipCheck.is_disabled(self) and check in self] *)
Definition is_set (self check : _SkipCheck) : bool :=
  negb (is_disabled self) && contains check self.

(** [_SkipCheck[name]]: member lookup by name, [KeyError] otherwise. *)
Definition member (name : string) : outcome _SkipCheck :=
  if String.eqb name "SKIP_CHECK_DISABLED" then Returns SKIP_CHECK_DISABLED
  else if String.eqb name "SKIP_CHECK_DEVICE" then Returns SKIP_CHECK_DEVICE
  else if String.eqb name "SKIP_CHECK_BUILD_GRADIENT"
       then Returns SKIP_CHECK_BUILD_GRADIENT
  else if String.eqb name "SKIP_CHECK_EXECUTION_AGENT"
       then Returns SKIP_CHECK_EXECUTION_AGENT
  else Raises (KeyError name).

(** The list comprehension [[_SkipCheck[name] for name in names]]: the
    first unknown name raises. *)
Fixpoint members (names : list string) : outcome (list _SkipCheck) :=
  match names with
  | [] => Returns []
  | n :: rest =>
      match member n with
      | Raises e => Raises e
      | Returns v =>
          match members rest with
          | Raises e => Raises e
          | Returns vs => Returns (v :: vs)
          end
      end
  end.

(** [functools.reduce(lambda x, y: x | y, flags)] without an initial
    value: a [TypeError] on the empty sequence. *)
Definition reduce_or (flags : list _SkipCheck) : outcome _SkipCheck :=
  match flags with
  | [] => Raises (TypeError "reduce() of empty iterable with no initial value")
  | x :: rest => Returns (fold_left Z.lor rest x)
  end.

(** The skip-check part of [GraphExecutionManager.__init__].  [environ]
    is [os.environ]; [parse_os_env_skip_check_flags] comes from
    [_utils]. *)
Definition init_skip_check
    (parse_os_env_skip_check_flags : gmap string string -> string -> list string)
    (environ : gmap string string) : outcome _SkipCheck :=
  let default :=
    Z.lor (Z.lor SKIP_CHECK_DEVICE SKIP_CHECK_BUILD_GRADIENT)
          SKIP_CHECK_EXECUTION_AGENT in
  match environ !! "ORTMODULE_SKIPCHECK_POLICY" with
  | None => Returns default
  | Some _ =>
      match members (parse_os_env_skip_check_flags environ
                       "ORTMODULE_SKIPCHECK_POLICY") with
      | Raises e => Raises e
      | Returns flags => reduce_or flags
      end
  end.

End SkipCheck.

(** ** Data of the collaborators *)

(** [torch.device]: a type string and an optional index. *)
Record torch_device : Type := { dev_type : string; dev_index : option Z }.

#[global] Instance torch_device_eq_dec : EqDecision torch_device.
Proof. solve_decision. Defined.

(** [torch.onnx.TrainingMode] *)
Inductive TrainingMode : Type := EVAL | PRESERVE | TRAINING.

#[global] Instance TrainingMode_eq_dec : EqDecision TrainingMode.
Proof. solve_decision. Defined.

(** What the manager reads of a [torch.nn.Parameter]: its
    [requires_grad] marker; [param_id] stands for the object. *)
Record nn_Parameter : Type := { requires_grad : bool; param_id : Z }.

(** [DebugOptions]: [save_onnx_models.save/path/name_prefix] and
    [logging.log_level] (0 verbose, 1 info, 2 warning, 3 error, 4 fatal). *)
Record DebugOptions : Type := {
  save_onnx_models_save : bool;
  save_onnx_models_path : string;
  save_onnx_models_name_prefix : string;
  logging_log_level : Z
}.

(** [C.OrtModuleGraphBuilderConfiguration], as
    [_initialize_graph_builder] fills it. *)
Record OrtModuleGraphBuilderConfiguration : Type := {
  initializer_names : list string;
  initializer_names_to_train : list string;
  input_names_require_grad : list string;
  build_gradient_graph : bool;
  enable_caching : bool;
  loglevel : Z;
  use_memory_efficient_gradient : bool
}.

(** [C.PropagateCastOpsStrategy] *)
Inductive PropagateCastOpsStrategy : Type :=
  STRATEGY_NONE | INSERT_AND_REDUCE | FLOOD_FILL.

(** [C.TrainingGraphTransformerConfiguration] with its
    [propagate_cast_ops_config] inlined. *)
Record TrainingGraphTransformerConfiguration : Type := {
  propagate_cast_ops_level : Z;
  propagate_cast_ops_allow : list string;
  propagate_cast_ops_strategy : PropagateCastOpsStrategy;
  enable_compute_optimizer : bool;
  sparse_label_input_names : list string;
  sparse_embedding_input_names : list string
}.

(** [onnxruntime.SessionOptions], as [_get_session_config] fills it. *)
Record SessionOptions : Type := {
  enable_mem_pattern : bool;
  enable_mem_reuse : bool;
  use_deterministic_compute : bool;
  execution_order_priority_based : bool;
  log_severity_level : Z;
  session_config_entries : list (string * string);
  optimized_model_filepath : option string
}.

(** The keyword arguments [_get_exported_model] fixes for
    [torch.onnx.export]. *)
Record RequiredExportKwargs : Type := {
  kw_input_names : list string;
  kw_output_names : list string;
  kw_opset_version : Z;
  kw_do_constant_folding : bool;
  kw_training : TrainingMode;
  kw_dynamic_axes : gmap string (gmap Z string);
  kw_verbose : bool;
  kw_export_params : bool;
  kw_keep_initializers_as_inputs : bool
}.

Definition required_export_kwargs_keys : gset string :=
  list_to_set
    [ "input_names"; "output_names"; "opset_version"; "do_constant_folding";
      "training"; "dynamic_axes"; "verbose"; "export_params";
      "keep_initializers_as_inputs" ].

(** Modelled from the spec: [_runtime_inspector.RuntimeInspector] is not
    among the sources; the spec has the inspector activated and explicitly
    disabled again, which is the one bit kept here. *)
Record RuntimeInspector : Type := { input_inspector_enabled : bool }.

Definition LogLevel_WARNING : Z := 2.

(** Calls that leave the manager, in the order they are made. *)
Inductive Event : Type :=
| EvParseOutputs
| EvExport (kw : RequiredExportKwargs) (extra : gmap string string)
| EvSaveExportedModel
| EvInferShapes
| EvGraphBuilderInitialize (cfg : OrtModuleGraphBuilderConfiguration)
| EvEnableInputInspector
| EvCombineInputBuffersInitializers
| EvDisableInputInspector.

(** [None] is falsy; a [ModelProto], a [torch.device] or an [_InputInfo]
    object is truthy. *)
Definition truthy {A} (o : option A) : bool :=
  match o with Some _ => true | None => false end.

(** Python's [a or b] on values that are [None] or an object. *)
Definition py_or {A} (a b : option A) : option A :=
  match a with Some _ => a | None => b end.

(** [str(x)] of an optional address or index. *)
Definition py_str (x : option Z) : string :=
  match x with None => "None" | Some z => pretty z end.

Section GraphExecutionManager.

(** The input schema is compared by value with [==]; the other
    collaborator types are opaque. *)
Context {Schema : Type} `{!EqDecision Schema}.
Context {Inputs ModelProto Bytes RandomStates TorchModule Buffer
         Density : Type}.

(** [_io._InputInfo] *)
Record _InputInfo : Type := {
  names : list string;
  shape : list (list Z);
  require_grad_names : list string;
  dynamic_axes : gmap string (gmap Z string);
  schema : Schema
}.

(** A [C.OrtModuleGraphBuilder]: created empty, then initialized with the
    serialized model and the configuration. *)
Record OrtModuleGraphBuilder : Type := {
  gb_initialized : option (Bytes * OrtModuleGraphBuilderConfiguration)
}.

(** The functions of other modules that the manager calls.  Those that
    may consume process-wide randomness take and return the random
    states. *)
Record Externals : Type := {
  (* _io *)
  _extract_schema : Inputs -> Schema;
  input_names_of : Schema -> Inputs -> list string;
  input_shape_of : Schema -> Inputs -> list (list Z);
  input_names_require_grad_of : Schema -> Inputs -> list string;
  input_dynamic_axes_of : Schema -> Inputs -> gmap string (gmap Z string);
  parse_outputs_for_onnx_export_and_extract_schema :
    TorchModule -> Inputs -> RandomStates ->
    outcome (list string * gmap string (gmap Z string) * Schema)
    * RandomStates;
  deepcopy_and_flatten :
    _InputInfo -> Inputs -> option torch_device -> Inputs;
  _combine_input_buffers_initializers :
    list nn_Parameter -> list string -> option _InputInfo ->
    list (string * Buffer) -> Inputs -> option torch_device ->
    list (string * Density) * list (string * Density);
  format_density : Density -> string;
  (* _utils *)
  get_device_from_module : TorchModule -> option torch_device;
  get_device_from_inputs : Inputs -> option torch_device;
  get_exception_as_string : exn -> string;
  repr_names : gset string -> string;
  (* torch.onnx, onnx, the symbolic shape inference *)
  torch_onnx_export :
    Inputs -> RequiredExportKwargs -> gmap string string -> RandomStates ->
    outcome (Bytes * Z) * RandomStates;
  load_model_from_string : Bytes -> ModelProto;
  _post_process_after_export : ModelProto -> bool -> ModelProto;
  infer_shapes : ModelProto -> RandomStates -> outcome ModelProto * RandomStates;
  graph_input : ModelProto -> list string;
  SerializeToString : ModelProto -> Bytes;
  (* the pybind state C and onnxruntime *)
  graph_builder_initialize :
    Bytes -> OrtModuleGraphBuilderConfiguration -> outcome unit;
  user_input_names : OrtModuleGraphBuilder -> list string;
  get_ort_device_provider_info :
    option Z -> list (string * list (string * string));
  ortmodule_loglevel_to_onnxruntime_c_loglevel : Z -> Z;
  _are_deterministic_algorithms_enabled : bool;
  _defined_from_envvar : string -> string -> string;
  execution_model_filepath : string -> string -> option TrainingMode -> string
}.

(** Attributes of [self] that the methods below only read;
    [class_name] is [type(self).__name__], the name of the concrete
    manager class, which the interpreter puts in the message of an
    [AttributeError]. *)
Record Settings : Type := {
  class_name : string;
  _original_module : TorchModule;
  named_parameters : list (string * nn_Parameter);
  named_buffers : list (string * Buffer);
  _debug_options : DebugOptions;
  _skip_check : SkipCheck._SkipCheck;
  _propagate_cast_ops_strategy : PropagateCastOpsStrategy;
  _propagate_cast_ops_level : Z;
  _propagate_cast_ops_allow : list string;
  _export_mode : option TrainingMode;
  _export_extra_kwargs : gmap string string;
  _run_symbolic_shape_infer : bool;
  _enable_custom_autograd_function : bool;
  ONNX_OPSET_VERSION : Z;
  is_rocm_pytorch : bool;
  _use_external_gpu_allocator : bool;
  _torch_alloc : option Z;
  _torch_free : option Z;
  _torch_empty_cache : option Z;
  _enable_grad_acc_optimization : bool;
  _use_memory_efficient_gradient : bool;
  _enable_compute_optimizer : bool;
  _enable_sparse_optimizer : bool;
  _print_input_density : bool
}.

(** [self]: the settings and the attributes that the methods assign.
    [exported_model] is [self._onnx_models.exported_model];
    [_flattened_module_input_info] is [self._flattened_module._input_info]. *)
Record Manager : Type := {
  settings : Settings;
  exported_model : option ModelProto;
  _graph_builder : option OrtModuleGraphBuilder;
  _graph_initializer_names : gset string;
  _graph_initializer_names_to_train : gset string;
  _graph_initializers : list nn_Parameter;
  _rt_inspector : RuntimeInspector;
  _input_info : option _InputInfo;
  _flattened_module_input_info : option _InputInfo;
  _module_output_schema : option Schema;
  _warning_log_detected_during_export : bool;
  _device : option torch_device;
  _original_model_has_changed : bool;
  _feature_map : list (list string)
}.

(** The store: the process-wide random states, the calls made so far
    (latest first) and [self]. *)
Record Store : Type := {
  random_states : RandomStates;
  trace : list Event;
  self : Manager
}.

Definition with_self (f : Manager -> Manager) (s : Store) : Store :=
  {| random_states := random_states s; trace := trace s; self := f (self s) |}.

Definition with_random_states (r : RandomStates) (s : Store) : Store :=
  {| random_states := r; trace := trace s; self := self s |}.

Definition emit (e : Event) : M Store unit :=
  modify (fun s => {| random_states := random_states s;
                      trace := e :: trace s; self := self s |}).

(** Assignments to attributes of [self]. *)
Definition set_exported_model (v : option ModelProto) (m : Manager) : Manager :=
  Build_Manager (settings m) v (_graph_builder m)
    (_graph_initializer_names m) (_graph_initializer_names_to_train m)
    (_graph_initializers m) (_rt_inspector m) (_input_info m)
    (_flattened_module_input_info m) (_module_output_schema m)
    (_warning_log_detected_during_export m) (_device m)
    (_original_model_has_changed m) (_feature_map m).

Definition set_graph_builder (v : option OrtModuleGraphBuilder) (m : Manager)
  : Manager :=
  Build_Manager (settings m) (exported_model m) v
    (_graph_initializer_names m) (_graph_initializer_names_to_train m)
    (_graph_initializers m) (_rt_inspector m) (_input_info m)
    (_flattened_module_input_info m) (_module_output_schema m)
    (_warning_log_detected_during_export m) (_device m)
    (_original_model_has_changed m) (_feature_map m).

Definition set_graph_initializers
    (ns nst : gset string) (ps : list nn_Parameter) (m : Manager) : Manager :=
  Build_Manager (settings m) (exported_model m) (_graph_builder m)
    ns nst ps (_rt_inspector m) (_input_info m)
    (_flattened_module_input_info m) (_module_output_schema m)
    (_warning_log_detected_during_export m) (_device m)
    (_original_model_has_changed m) (_feature_map m).

Definition set_rt_inspector (v : RuntimeInspector) (m : Manager) : Manager :=
  Build_Manager (settings m) (exported_model m) (_graph_builder m)
    (_graph_initializer_names m) (_graph_initializer_names_to_train m)
    (_graph_initializers m) v (_input_info m)
    (_flattened_module_input_info m) (_module_output_schema m)
    (_warning_log_detected_during_export m) (_device m)
    (_original_model_has_changed m) (_feature_map m).

Definition set_input_info (v : option _InputInfo) (m : Manager) : Manager :=
  Build_Manager (settings m) (exported_model m) (_graph_builder m)
    (_graph_initializer_names m) (_graph_initializer_names_to_train m)
    (_graph_initializers m) (_rt_inspector m) v
    (_flattened_module_input_info m) (_module_output_schema m)
    (_warning_log_detected_during_export m) (_device m)
    (_original_model_has_changed m) (_feature_map m).

Definition set_flattened_module_input_info (v : option _InputInfo)
    (m : Manager) : Manager :=
  Build_Manager (settings m) (exported_model m) (_graph_builder m)
    (_graph_initializer_names m) (_graph_initializer_names_to_train m)
    (_graph_initializers m) (_rt_inspector m) (_input_info m)
    v (_module_output_schema m)
    (_warning_log_detected_during_export m) (_device m)
    (_original_model_has_changed m) (_feature_map m).

Definition set_module_output_schema (v : option Schema) (m : Manager)
  : Manager :=
  Build_Manager (settings m) (exported_model m) (_graph_builder m)
    (_graph_initializer_names m) (_graph_initializer_names_to_train m)
    (_graph_initializers m) (_rt_inspector m) (_input_info m)
    (_flattened_module_input_info m) v
    (_warning_log_detected_during_export m) (_device m)
    (_original_model_has_changed m) (_feature_map m).

Definition set_warning_log_detected_during_export (v : bool) (m : Manager)
  : Manager :=
  Build_Manager (settings m) (exported_model m) (_graph_builder m)
    (_graph_initializer_names m) (_graph_initializer_names_to_train m)
    (_graph_initializers m) (_rt_inspector m) (_input_info m)
    (_flattened_module_input_info m) (_module_output_schema m)
    v (_device m)
    (_original_model_has_changed m) (_feature_map m).

Definition set_device (v : option torch_device) (m : Manager) : Manager :=
  Build_Manager (settings m) (exported_model m) (_graph_builder m)
    (_graph_initializer_names m) (_graph_initializer_names_to_train m)
    (_graph_initializers m) (_rt_inspector m) (_input_info m)
    (_flattened_module_input_info m) (_module_output_schema m)
    (_warning_log_detected_during_export m) v
    (_original_model_has_changed m) (_feature_map m).

Definition set_original_model_has_changed (v : bool) (m : Manager) : Manager :=
  Build_Manager (settings m) (exported_model m) (_graph_builder m)
    (_graph_initializer_names m) (_graph_initializer_names_to_train m)
    (_graph_initializers m) (_rt_inspector m) (_input_info m)
    (_flattened_module_input_info m) (_module_output_schema m)
    (_warning_log_detected_during_export m) (_device m)
    v (_feature_map m).

Definition set_feature_map (v : list (list string)) (m : Manager) : Manager :=
  Build_Manager (settings m) (exported_model m) (_graph_builder m)
    (_graph_initializer_names m) (_graph_initializer_names_to_train m)
    (_graph_initializers m) (_rt_inspector m) (_input_info m)
    (_flattened_module_input_info m) (_module_output_schema m)
    (_warning_log_detected_during_export m) (_device m)
    (_original_model_has_changed m) v.

Definition assign (f : Manager -> Manager) : M Store unit :=
  modify (with_self f).

Definition read {A} (f : Manager -> A) : M Store A :=
  gets (fun s => f (self s)).

Definition setting {A} (f : Settings -> A) : M Store A :=
  gets (fun s => f (settings (self s))).

Variable ext : Externals.

Definition lift_outcome {A} (o : outcome A) : M Store A := fun s => (o, s).

(** A collaborator that may consume process-wide randomness. *)
Definition call_random {A}
    (f : RandomStates -> outcome A * RandomStates) : M Store A :=
  fun s => let '(o, r) := f (random_states s) in (o, with_random_states r s).

(** Modelled from the spec: [_utils.get_random_states] and
    [_utils.set_random_states] are not among the sources; the spec has
    them snapshot and restore the process-wide pseudo-random state. *)
Definition get_random_states : M Store RandomStates := gets random_states.

Definition set_random_states (r : RandomStates) : M Store unit :=
  modify (with_random_states r).

(** Modelled from the spec: [_io.parse_inputs_for_onnx_export] is not
    among the sources.  The spec compares the schema of a call with the
    last schema of the export cache, and [_export_model] reads that one
    back as [self._input_info.schema]: the [_InputInfo] built for a
    schema records that schema; its other fields come from the analysis
    of the inputs. *)
Definition parse_inputs_for_onnx_export
    (input_schema : Schema) (inputs : Inputs) : _InputInfo :=
  {| names := input_names_of ext input_schema inputs;
     shape := input_shape_of ext input_schema inputs;
     require_grad_names := input_names_require_grad_of ext input_schema inputs;
     dynamic_axes := input_dynamic_axes_of ext input_schema inputs;
     schema := input_schema |}.

(** [info.dynamic_axes.update(other)]: the keys of [other] win. *)
Definition update_dynamic_axes
    (other : gmap string (gmap Z string)) (info : _InputInfo) : _InputInfo :=
  {| names := names info; shape := shape info;
     require_grad_names := require_grad_names info;
     dynamic_axes := other ∪ dynamic_axes info;
     schema := schema info |}.

Definition LF : string := String (Ascii.ascii_of_nat 10) EmptyString.

Definition export_error_prefix : string :=
  "There was an error while exporting the PyTorch model to ONNX: "
  ++ LF ++ LF.

(** [_set_device_from_module] *)
Definition _set_device_from_module (inputs : Inputs) : M Store unit :=
  original ← setting _original_module;
  let device := py_or (get_device_from_module ext original)
                      (get_device_from_inputs ext inputs) in
  current ← read _device;
  if negb (truthy current) || bool_decide (current ≠ device) then
    assign (set_device device);;
    now ← read _device;
    if negb (truthy now) then
      raise (wrap_exception ORTModuleDeviceException
               (RuntimeError "A device must be specified in the model or inputs!"))
    else mret tt
  else mret tt.

(** [_get_exported_model].  The captured size that
    [suppress_output.tell()] reports comes back with the exporter's
    bytes; the export duration is wall-clock time and is left out. *)
Definition _get_exported_model (input_schema : Schema) (inputs : Inputs)
  : M Store ModelProto :=
  let info := parse_inputs_for_onnx_export input_schema inputs in
  assign (set_input_info (Some info));;
  original ← setting _original_module;
  emit EvParseOutputs;;
  parsed ← call_random
    (parse_outputs_for_onnx_export_and_extract_schema ext original inputs);
  let '(output_names, output_dynamic_axes, output_schema) := parsed in
  assign (set_module_output_schema (Some output_schema));;
  let info := update_dynamic_axes output_dynamic_axes info in
  assign (set_input_info (Some info));;
  assign (set_flattened_module_input_info (Some info));;
  device ← read _device;
  let sample_inputs_as_tuple := deepcopy_and_flatten ext info inputs device in
  mode ← setting _export_mode;
  match mode with
  | None =>
      raise (AssertionError "Please use a concrete instance of ExecutionManager")
  | Some training =>
      opset ← setting ONNX_OPSET_VERSION;
      debug ← setting _debug_options;
      extra ← setting _export_extra_kwargs;
      exported ← try_except
        (let required_export_kwargs :=
           {| kw_input_names := names info;
              kw_output_names := output_names;
              kw_opset_version := opset;
              kw_do_constant_folding := false;
              kw_training := training;
              kw_dynamic_axes := dynamic_axes info;
              kw_verbose := logging_log_level debug <? LogLevel_WARNING;
              kw_export_params := false;
              kw_keep_initializers_as_inputs := true |} in
         let invalid_args : gset string :=
           dom extra ∩ required_export_kwargs_keys in
         if bool_decide (size invalid_args = 0%nat) then
           emit (EvExport required_export_kwargs extra);;
           call_random (torch_onnx_export ext sample_inputs_as_tuple
                          required_export_kwargs extra)
         else
           raise (AssertionError
                    ("The following PyTorch exporter arguments cannot be specified: '"
                     ++ repr_names ext invalid_args ++ "'.")))
        (fun e => wrap_exception ORTModuleONNXModelException
                    (RuntimeError (export_error_prefix
                                   ++ get_exception_as_string ext e)));
      let '(f, captured) := exported in
      let exported_model := load_model_from_string ext f in
      custom ← setting _enable_custom_autograd_function;
      let exported_model := _post_process_after_export ext exported_model custom in
      when (0 <? captured)
           (assign (set_warning_log_detected_during_export true));;
      mret exported_model
  end.

(** [_export_model]: [True] when the model was exported, [False] when no
    export is required. *)
Definition _export_model (inputs : Inputs) : M Store bool :=
  saved ← get_random_states;
  let current_schema := _extract_schema ext inputs in
  cached ← read exported_model;
  already_exported ←
    (if truthy cached then
       info ← read _input_info;
       match info with
       | None =>
           raise (AttributeError "'NoneType' object has no attribute 'schema'")
       | Some info =>
           if bool_decide (current_schema = schema info) then
             changed ← read _original_model_has_changed;
             mret (negb changed)
           else mret false
       end
     else mret false);
  if (already_exported : bool) then mret false
  else
    _set_device_from_module inputs;;
    model ← _get_exported_model current_schema inputs;
    assign (set_exported_model (Some model));;
    debug ← setting _debug_options;
    when (save_onnx_models_save debug) (emit EvSaveExportedModel);;
    run ← setting _run_symbolic_shape_infer;
    when run
      (emit EvInferShapes;;
       inferred ← call_random (infer_shapes ext model);
       assign (set_exported_model (Some inferred)));;
    set_random_states saved;;
    mret true.

(** The export decision in the words of the spec: true if no prior
    export exists, or the schema differs from the last schema, or the
    change signal is set. *)
Definition last_schema (m : Manager) : option Schema :=
  schema <$> _input_info m.

Definition needs_export (m : Manager) (current_schema : Schema) : bool :=
  negb (truthy (exported_model m))
  || bool_decide (last_schema m ≠ Some current_schema)
  || _original_model_has_changed m.

(** [signal_model_changed] *)
Definition signal_model_changed : M Store unit :=
  assign (set_original_model_has_changed true).

(** [_get_graph_transformer_config] *)
Definition _get_graph_transformer_config
  : M Store TrainingGraphTransformerConfiguration :=
  level ← setting _propagate_cast_ops_level;
  allow ← setting _propagate_cast_ops_allow;
  strategy ← setting _propagate_cast_ops_strategy;
  compute ← setting _enable_compute_optimizer;
  mret {| propagate_cast_ops_level := level;
          propagate_cast_ops_allow := allow;
          propagate_cast_ops_strategy := strategy;
          enable_compute_optimizer := compute;
          sparse_label_input_names := [];
          sparse_embedding_input_names := [] |}.

(** The two list comprehensions of [_initialize_graph_builder] over
    [self._flattened_module.named_parameters()]. *)
Definition select_initializer_names
    (params : list (string * nn_Parameter))
    (onnx_initializer_names : gset string) : list string :=
  map fst
    (List.filter (fun np => bool_decide (np.1 ∈ onnx_initializer_names))
                 params).

Definition select_initializer_names_to_train
    (params : list (string * nn_Parameter))
    (onnx_initializer_names : gset string) : list string :=
  map fst
    (List.filter
       (fun np => requires_grad np.2
                  && bool_decide (np.1 ∈ onnx_initializer_names))
       params).

(** [_initialize_graph_builder] *)
Definition _initialize_graph_builder : M Store unit :=
  cached ← read exported_model;
  match cached with
  | None => raise (AttributeError "'NoneType' object has no attribute 'graph'")
  | Some model =>
      let onnx_initializer_names : gset string :=
        list_to_set (graph_input ext model) in
      params ← setting named_parameters;
      let initializer_names :=
        select_initializer_names params onnx_initializer_names in
      let initializer_names_to_train :=
        select_initializer_names_to_train params onnx_initializer_names in
      info ← read _input_info;
      match info with
      | None =>
          raise (AttributeError
                   "'NoneType' object has no attribute 'require_grad_names'")
      | Some info =>
          mode ← setting _export_mode;
          caching ← setting _enable_grad_acc_optimization;
          debug ← setting _debug_options;
          memory_efficient ← setting _use_memory_efficient_gradient;
          let grad_builder_config :=
            {| initializer_names := initializer_names;
               initializer_names_to_train := initializer_names_to_train;
               input_names_require_grad := require_grad_names info;
               build_gradient_graph := bool_decide (mode = Some TRAINING);
               enable_caching := caching;
               loglevel := ortmodule_loglevel_to_onnxruntime_c_loglevel ext
                             (logging_log_level debug);
               use_memory_efficient_gradient := memory_efficient |} in
          assign (set_graph_builder (Some {| gb_initialized := None |}));;
          let serialized := SerializeToString ext model in
          emit (EvGraphBuilderInitialize grad_builder_config);;
          lift_outcome
            (graph_builder_initialize ext serialized grad_builder_config);;
          assign (set_graph_builder
                    (Some {| gb_initialized :=
                               Some (serialized, grad_builder_config) |}));;
          let names_set : gset string := list_to_set initializer_names in
          assign (set_graph_initializers
                    names_set
                    (list_to_set initializer_names_to_train)
                    (map snd
                       (List.filter
                          (fun np => bool_decide (np.1 ∈ names_set))
                          params)))
      end
  end.

Definition on_off (b : bool) : string := if b then "ON" else "OFF".

(** [",".join([f"{k}:{v:.0f}%" for k, v in results.items()])] *)
Definition sparsity_stat_str (results : list (string * Density)) : string :=
  String.concat ","
    (map (fun kv => kv.1 ++ ":" ++ format_density ext kv.2 ++ "%") results).

Definition set_sparse_label_input_names (v : list string)
    (c : TrainingGraphTransformerConfiguration)
  : TrainingGraphTransformerConfiguration :=
  {| propagate_cast_ops_level := propagate_cast_ops_level c;
     propagate_cast_ops_allow := propagate_cast_ops_allow c;
     propagate_cast_ops_strategy := propagate_cast_ops_strategy c;
     enable_compute_optimizer := enable_compute_optimizer c;
     sparse_label_input_names := v;
     sparse_embedding_input_names := sparse_embedding_input_names c |}.

Definition set_sparse_embedding_input_names (v : list string)
    (c : TrainingGraphTransformerConfiguration)
  : TrainingGraphTransformerConfiguration :=
  {| propagate_cast_ops_level := propagate_cast_ops_level c;
     propagate_cast_ops_allow := propagate_cast_ops_allow c;
     propagate_cast_ops_strategy := propagate_cast_ops_strategy c;
     enable_compute_optimizer := enable_compute_optimizer c;
     sparse_label_input_names := sparse_label_input_names c;
     sparse_embedding_input_names := v |}.

Definition append_feature (row : list string) : M Store unit :=
  fm ← read _feature_map;
  assign (set_feature_map (fm ++ [row])%list).

Definition sparsity_switch : string :=
  ", switch: ORTMODULE_ENABLE_SPARSE_OPTIMIZER=1/0".

(** [_enable_conditional_optimizations]: the configuration object it is
    handed is updated in place, which is the value returned here. *)
Definition _enable_conditional_optimizations
    (graph_transformer_config : TrainingGraphTransformerConfiguration)
    (inputs : Inputs) : M Store TrainingGraphTransformerConfiguration :=
  compute ← setting _enable_compute_optimizer;
  append_feature
    [ "Compute Optimizer"; on_off compute;
      "Enable/Disable with env ORTMODULE_ENABLE_COMPUTE_OPTIMIZER=1/0" ];;
  append_feature
    [ " -FLOPReduction"; on_off compute;
      "Enable/Disable with env ORTMODULE_ENABLE_COMPUTE_OPTIMIZER=1/0" ];;
  sparse ← setting _enable_sparse_optimizer;
  print ← setting _print_input_density;
  if sparse || print then
    builder ← read _graph_builder;
    match builder with
    | None =>
        raise (AttributeError
                 "'NoneType' object has no attribute 'get_graph_info'")
    | Some builder =>
        emit EvEnableInputInspector;;
        assign (set_rt_inspector {| input_inspector_enabled := true |});;
        config ←
          (if sparse then
             original ← setting _original_module;
             let detected_device :=
               py_or (get_device_from_module ext original)
                     (get_device_from_inputs ext inputs) in
             initializers ← read _graph_initializers;
             info ← read _input_info;
             buffers ← setting named_buffers;
             emit EvCombineInputBuffersInitializers;;
             let '(embed_sparsity_results, label_sparsity_results) :=
               _combine_input_buffers_initializers ext initializers
                 (user_input_names ext builder) info buffers inputs
                 detected_device in
             config ←
               (if (0 <? length label_sparsity_results)%nat then
                  append_feature
                    [ " -LabelSparsityOpt"; "ON";
                      "Input density: "
                      ++ sparsity_stat_str label_sparsity_results
                      ++ sparsity_switch ];;
                  mret (set_sparse_label_input_names
                          (map fst label_sparsity_results)
                          graph_transformer_config)
                else mret graph_transformer_config);
             if (0 <? length embed_sparsity_results)%nat then
               append_feature
                 [ " -EmbedSparsityOpt"; "ON";
                   "Input density: "
                   ++ sparsity_stat_str embed_sparsity_results
                   ++ sparsity_switch ];;
               mret (set_sparse_embedding_input_names
                       (map fst embed_sparsity_results) config)
             else mret config
           else mret graph_transformer_config);
        (if negb print then
           emit EvDisableInputInspector;;
           assign (set_rt_inspector {| input_inspector_enabled := false |})
         else mret tt);;
        mret config
    end
  else mret graph_transformer_config.

(** The sparsity results that [_enable_conditional_optimizations] gets
    from [_io] when the sparse optimizer is on: those of the embedding
    inputs and those of the label inputs. *)
Definition sparsity_results (builder : OrtModuleGraphBuilder)
    (inputs : Inputs) (m : Manager)
  : list (string * Density) * list (string * Density) :=
  _combine_input_buffers_initializers ext (_graph_initializers m)
    (user_input_names ext builder) (_input_info m)
    (named_buffers (settings m)) inputs
    (py_or (get_device_from_module ext (_original_module (settings m)))
           (get_device_from_inputs ext inputs)).

(** [self.<name>] of an attribute that is only there once it has been
    assigned; otherwise the interpreter's [AttributeError]. *)
Definition attribute (name : string) (v : option Z) : M Store Z :=
  match v with
  | Some z => mret z
  | None =>
      cls ← setting class_name;
      raise (AttributeError
               ("'" ++ cls ++ "' object has no attribute '" ++ name ++ "'"))
  end.

(** [_get_session_config]: the session options, the provider list and
    the provider options ([None] when no branch builds them). *)
Definition _get_session_config
  : M Store (SessionOptions * option (list string)
             * option (list (list (string * string)))) :=
  device ← read _device;
  match device with
  | None => raise (AttributeError "'NoneType' object has no attribute 'type'")
  | Some device =>
      rocm ← setting is_rocm_pytorch;
      built ←
        (if String.eqb (dev_type device) "cuda" then
           let providers :=
             ((if (rocm : bool) then ["ROCMExecutionProvider"]
               else ["CUDAExecutionProvider"])
              ++ ["CPUExecutionProvider"])%list in
           let provider_option_map :=
             [("device_id", py_str (dev_index device))] in
           let provider_option_map :=
             if negb rocm then
               let conv_algo_search :=
                 _defined_from_envvar ext "ORTMODULE_CONV_ALGO_SEARCH"
                                      "HEURISTIC" in
               let conv_algo_search :=
                 if String.eqb conv_algo_search "HEURISTIC"
                    || String.eqb conv_algo_search "EXHAUSTIVE"
                 then conv_algo_search else "HEURISTIC" in
               (provider_option_map
                ++ [ ("cudnn_conv_algo_search", conv_algo_search);
                     ("cudnn_conv_use_max_workspace", "1");
                     ("cudnn_conv1d_pad_to_nc1d", "1") ])%list
             else provider_option_map in
           external ← setting _use_external_gpu_allocator;
           provider_option_map ←
             (if (external : bool) then
                alloc ← (a ← setting _torch_alloc; attribute "_torch_alloc" a);
                free ← (a ← setting _torch_free; attribute "_torch_free" a);
                empty ← (a ← setting _torch_empty_cache;
                         attribute "_torch_empty_cache" a);
                mret (provider_option_map
                      ++ [ ("gpu_external_alloc", pretty alloc);
                           ("gpu_external_free", pretty free);
                           ("gpu_external_empty_cache", pretty empty) ])%list
              else mret provider_option_map);
           mret (Some providers, Some [provider_option_map; []])
         else if String.eqb (dev_type device) "cpu" then
           mret (Some ["CPUExecutionProvider"], Some [[]])
         else if String.eqb (dev_type device) "ort" then
           let provider_info :=
             get_ort_device_provider_info ext (dev_index device) in
           if (length provider_info =? 1)%nat then
             mret (Some (map fst provider_info), Some (map snd provider_info))
           else raise (AssertionError "")
         else mret (None, None));
      let '(providers, provider_options) := built in
      debug ← setting _debug_options;
      mode ← setting _export_mode;
      let alleviation_config :=
        _defined_from_envvar ext "ORTMODULE_MEMORY_OPT_CONFIG" "" in
      let probe_level :=
        _defined_from_envvar ext "ORTMODULE_MEMORY_OPT_PROBE_RECOMPUTE_LEVEL"
                             "1" in
      let session_options :=
        {| enable_mem_pattern := false;
           enable_mem_reuse := false;
           use_deterministic_compute :=
             _are_deterministic_algorithms_enabled ext;
           execution_order_priority_based := true;
           log_severity_level := logging_log_level debug;
           session_config_entries :=
             [ ("optimization.enable_memory_optimizer", alleviation_config);
               ("optimization.enable_memory_probe_recompute_level",
                probe_level);
               ("session.disable_prepacking", "1") ];
           optimized_model_filepath :=
             if save_onnx_models_save debug then
               Some (execution_model_filepath ext
                       (save_onnx_models_path debug)
                       (save_onnx_models_name_prefix debug) mode)
             else None |} in
      mret (session_options, providers, provider_options)
  end.

End GraphExecutionManager.

(** The provider preference order in the words of the spec: a list whose
    last entry is the general-purpose CPU provider and, when the device is
    not the CPU, whose first entry is an accelerator provider. *)
Definition provider_order_as_specified
    (device : torch_device) (providers : option (list string)) : Prop :=
  exists l, providers = Some l /\
    last l = Some "CPUExecutionProvider" /\
    (dev_type device <> "cpu" ->
     exists p rest, l = p :: rest /\ p <> "CPUExecutionProvider").

(** The accelerator provider of a cuda device. *)
Definition accelerator_provider (rocm : bool) : string :=
  if rocm then "ROCMExecutionProvider" else "CUDAExecutionProvider".

(** ** A concrete manager

    One tensor argument described by its rank, a module with three
    parameters on a CPU device, an exporter that consumes randomness and
    fails on inputs marked as not exportable. *)

Module Scenario.

Record Inputs : Type := {
  in_rank : Z;
  in_device : option torch_device;
  in_exportable : bool
}.

Definition cpu : torch_device := {| dev_type := "cpu"; dev_index := None |}.
Definition cuda0 : torch_device := {| dev_type := "cuda"; dev_index := Some 0 |}.
Definition ort0 : torch_device := {| dev_type := "ort"; dev_index := Some 0 |}.
Definition meta : torch_device := {| dev_type := "meta"; dev_index := None |}.

Definition ext
  : @Externals Z Inputs (list string) (list string) Z (option torch_device)
               unit Z :=
  {| _extract_schema := in_rank;
     input_names_of := fun _ _ => ["x"];
     input_shape_of := fun _ _ => [];
     input_names_require_grad_of := fun _ _ => [];
     input_dynamic_axes_of := fun _ _ => ∅;
     parse_outputs_for_onnx_export_and_extract_schema :=
       fun _ i r => (Returns (["y"], ∅, in_rank i), r + 1);
     deepcopy_and_flatten := fun _ i _ => i;
     _combine_input_buffers_initializers :=
       fun _ _ _ _ _ _ => ([], [("labels", 30)]);
     format_density := fun d => pretty d;
     get_device_from_module := fun m => m;
     get_device_from_inputs := in_device;
     get_exception_as_string :=
       fun e => match e with External t => t | _ => "Exception" end;
     repr_names := fun _ => "{...}";
     torch_onnx_export :=
       fun sample _ _ r =>
         (if in_exportable sample then Returns (["x"; "w"; "b"], 0)
          else Raises (External "Unsupported ONNX operator"), r + 1);
     load_model_from_string := fun b => b;
     _post_process_after_export := fun m _ => m;
     infer_shapes := fun m r => (Returns m, r + 1);
     graph_input := fun m => m;
     SerializeToString := fun m => m;
     graph_builder_initialize := fun _ _ => Returns tt;
     user_input_names := fun _ => ["x"];
     get_ort_device_provider_info :=
       fun _ => [("TestExecutionProvider", [])];
     ortmodule_loglevel_to_onnxruntime_c_loglevel := fun l => l;
     _are_deterministic_algorithms_enabled := false;
     _defined_from_envvar := fun _ default => default;
     execution_model_filepath :=
       fun path prefix _ => path ++ "/" ++ prefix ++ "_execution_model.onnx"
  |}%string.

Definition debug_options : DebugOptions :=
  {| save_onnx_models_save := false;
     save_onnx_models_path := ".";
     save_onnx_models_name_prefix := "";
     logging_log_level := 2 |}.

(** The attributes as [__init__] and a training manager leave them, for a
    module whose parameters are on [module_device]. *)
Definition init_settings (module_device : option torch_device)
    (sparse print : bool) : @Settings (option torch_device) unit :=
  {| class_name := "TrainingManager";
     _original_module := module_device;
     named_parameters :=
       [ ("w", {| requires_grad := true; param_id := 1 |});
         ("b", {| requires_grad := false; param_id := 2 |});
         ("unused", {| requires_grad := true; param_id := 3 |}) ];
     named_buffers := [];
     _debug_options := debug_options;
     _skip_check := 14;
     _propagate_cast_ops_strategy := FLOOD_FILL;
     _propagate_cast_ops_level := 1;
     _propagate_cast_ops_allow := [];
     _export_mode := Some TRAINING;
     _export_extra_kwargs := ∅;
     _run_symbolic_shape_infer := true;
     _enable_custom_autograd_function := false;
     ONNX_OPSET_VERSION := 15;
     is_rocm_pytorch := false;
     _use_external_gpu_allocator := true;
     _torch_alloc := Some 4096;
     _torch_free := Some 8192;
     _torch_empty_cache := Some 12288;
     _enable_grad_acc_optimization := false;
     _use_memory_efficient_gradient := false;
     _enable_compute_optimizer := true;
     _enable_sparse_optimizer := sparse;
     _print_input_density := print |}.

Definition init_manager (module_device : option torch_device)
    (sparse print : bool) : @Manager Z (list string) (list string)
                                     (option torch_device) unit :=
  {| settings := init_settings module_device sparse print;
     exported_model := None;
     _graph_builder := None;
     _graph_initializer_names := ∅;
     _graph_initializer_names_to_train := ∅;
     _graph_initializers := [];
     _rt_inspector := {| input_inspector_enabled := false |};
     _input_info := None;
     _flattened_module_input_info := None;
     _module_output_schema := None;
     _warning_log_detected_during_export := false;
     _device := module_device;
     _original_model_has_changed := false;
     _feature_map := [] |}.

Definition init_store (module_device : option torch_device)
    (sparse print : bool) : Store :=
  {| random_states := 42; trace := []; self := init_manager module_device sparse print |}.

(** Arguments of rank 2 and of rank 3; the rank-3 call is one the
    exporter fails on. *)
Definition rank2 : Inputs :=
  {| in_rank := 2; in_device := Some cpu; in_exportable := true |}.
Definition rank3_failing : Inputs :=
  {| in_rank := 3; in_device := Some cpu; in_exportable := false |}.
Definition rank3 : Inputs :=
  {| in_rank := 3; in_device := Some cpu; in_exportable := true |}.
Definition no_tensor : Inputs :=
  {| in_rank := 0; in_device := None; in_exportable := true |}.

(** The store after a first, successful export of the rank-2 call. *)
Definition exported_rank2 : Store :=
  (_export_model ext rank2 (init_store (Some cpu) true false)).2.

(** The same, once the graph builder has been initialized. *)
Definition built_rank2 (sparse print : bool) : Store :=
  (_initialize_graph_builder ext
     (_export_model ext rank2 (init_store (Some cpu) sparse print)).2).2.

(** The configuration [_get_graph_transformer_config] returns for these
    settings. *)
Definition transformer_config : TrainingGraphTransformerConfiguration :=
  {| propagate_cast_ops_level := 1;
     propagate_cast_ops_allow := [];
     propagate_cast_ops_strategy := FLOOD_FILL;
     enable_compute_optimizer := true;
     sparse_label_input_names := [];
     sparse_embedding_input_names := [] |}.

(** The states an execution manager is in when the session is built. *)
Definition on_device (d : torch_device) : Store :=
  with_self (set_device (Some d)) (init_store (Some d) true false).

End Scenario.

(** ** The methods around the export path *)

Section Housekeeping.

Context {TorchModule Buffer : Type}.

Definition set_torch_allocator (alloc free empty_cache : option Z)
    (st : @Settings TorchModule Buffer) : @Settings TorchModule Buffer :=
  {| class_name := class_name st;
     _original_module := _original_module st;
     named_parameters := named_parameters st;
     named_buffers := named_buffers st;
     _debug_options := _debug_options st;
     _skip_check := _skip_check st;
     _propagate_cast_ops_strategy := _propagate_cast_ops_strategy st;
     _propagate_cast_ops_level := _propagate_cast_ops_level st;
     _propagate_cast_ops_allow := _propagate_cast_ops_allow st;
     _export_mode := _export_mode st;
     _export_extra_kwargs := _export_extra_kwargs st;
     _run_symbolic_shape_infer := _run_symbolic_shape_infer st;
     _enable_custom_autograd_function := _enable_custom_autograd_function st;
     ONNX_OPSET_VERSION := ONNX_OPSET_VERSION st;
     is_rocm_pytorch := is_rocm_pytorch st;
     _use_external_gpu_allocator := _use_external_gpu_allocator st;
     _torch_alloc := alloc;
     _torch_free := free;
     _torch_empty_cache := empty_cache;
     _enable_grad_acc_optimization := _enable_grad_acc_optimization st;
     _use_memory_efficient_gradient := _use_memory_efficient_gradient st;
     _enable_compute_optimizer := _enable_compute_optimizer st;
     _enable_sparse_optimizer := _enable_sparse_optimizer st;
     _print_input_density := _print_input_density st |}.

(** [_get_torch_gpu_allocator_function_addresses]: the three addresses
    come from the [torch_gpu_allocator] extension and are assigned only
    when the external allocator is wanted and CUDA is available. *)
Definition _get_torch_gpu_allocator_function_addresses
    (cuda_is_available : bool) (alloc_address delete_address
     empty_cache_address : Z)
    (st : @Settings TorchModule Buffer) : @Settings TorchModule Buffer :=
  if _use_external_gpu_allocator st && cuda_is_available then
    set_torch_allocator (Some alloc_address) (Some delete_address)
                        (Some empty_cache_address) st
  else st.

End Housekeeping.

(** *** Pickling: [__getstate__] and [__setstate__]

    [self.__dict__] is a finite map from attribute names to values. *)

Section Pickle.

Context {V : Type}.

Definition serialization_deny_list : list string :=
  [ "_onnx_models"; "_graph_builder"; "_graph_info"; "_execution_agent";
    "_torch_alloc"; "_torch_free"; "_torch_empty_cache" ].

(** [del state[attribute_name]]: a [KeyError] when the key is absent. *)
Definition del_item (attribute_name : string) (state : gmap string V)
  : outcome (gmap string V) :=
  match state !! attribute_name with
  | Some _ => Returns (delete attribute_name state)
  | None => Raises (KeyError attribute_name)
  end.

(** [for attribute_name in names: del state[attribute_name]] *)
Fixpoint del_items (names : list string) (state : gmap string V)
  : outcome (gmap string V) :=
  match names with
  | [] => Returns state
  | n :: rest =>
      match del_item n state with
      | Returns state' => del_items rest state'
      | Raises e => Raises e
      end
  end.

(** [__getstate__]: [copy.copy(self.__dict__)] is a fresh dictionary, so
    the deletions do not reach [self.__dict__] itself. *)
Definition __getstate__ (dict : gmap string V) : outcome (gmap string V) :=
  del_items serialization_deny_list dict.

(** [__setstate__]: [self.__dict__.update(state)], the keys of [state]
    winning, then [_utils.reinitialize_graph_execution_manager(self)]. *)
Definition __setstate__
    (reinitialize_graph_execution_manager : gmap string V -> gmap string V)
    (dict state : gmap string V) : gmap string V :=
  reinitialize_graph_execution_manager (state ∪ dict).

End Pickle.

(** *** The feature table and [_log_feature_stats] *)

Definition TAB : string := String (Ascii.ascii_of_nat 9) EmptyString.

(** [f"{s:<width}"]: padded with spaces on the right up to [width]. *)
Definition ljust (width : nat) (s : string) : string :=
  s ++ String.concat "" (replicate (width - String.length s) " ").

(** [row[i]] of a Python list.  [exn] has no constructor for the
    interpreter's [IndexError]; it is carried as [External]. *)
Definition IndexError : exn := External "IndexError: list index out of range".

Definition getitem (row : list string) (i : nat) : outcome string :=
  match row !! i with
  | Some v => Returns v
  | None => Raises IndexError
  end.

(** One line of the table:
    [f"{feature_tuple[0]:<20}:\t{feature_tuple[1]:<10}:\t{feature_tuple[2]:<80}\n"] *)
Definition feature_line (feature_tuple : list string) : outcome string :=
  match getitem feature_tuple 0 with
  | Raises e => Raises e
  | Returns name =>
      match getitem feature_tuple 1 with
      | Raises e => Raises e
      | Returns state =>
          match getitem feature_tuple 2 with
          | Raises e => Raises e
          | Returns description =>
              Returns (ljust 20 name ++ ":" ++ TAB ++ ljust 10 state ++ ":"
                       ++ TAB ++ ljust 80 description ++ LF)
          end
      end
  end.

(** The loop [for feature_tuple in self._feature_map: stat += ...]. *)
Fixpoint feature_lines (stat : string) (rows : list (list string))
  : outcome string :=
  match rows with
  | [] => Returns stat
  | row :: rest =>
      match feature_line row with
      | Raises e => Raises e
      | Returns line => feature_lines (stat ++ line) rest
      end
  end.

(** What [_log_feature_stats] reads outside [self]'s modelled attributes:
    the rank of [torch.distributed] when it is initialized, the fallback
    policy, the colours of [_logger.LogColor], the export duration as
    [:.0f] prints it and the two version strings. *)
Record LogEnvironment : Type := {
  distributed_rank : option Z;
  fallback_disabled : bool;
  LogColor_UNDERLINE : string;
  LogColor_ENDC : string;
  LogColor_HEADER : string;
  LogColor_WARNING : string;
  export_duration_in_ms : string;
  onnxruntime_version : string;
  onnx_version : string
}.

(** The feature table [__init__] starts with; [memory_optimizer] is the
    value of [ORTMODULE_MEMORY_OPT_CONFIG], falsy when empty. *)
Definition initial_feature_map (propagate_cast_ops_level : Z)
    (memory_optimizer : string) : list (list string) :=
  [ ["ATen Executor"; "ON"; "Dispatch ATen operators to ORT's ATen executor"];
    ["Cast Propagation";
     if 0 <? propagate_cast_ops_level then "ON" else "OFF";
     "Level " ++ pretty propagate_cast_ops_level ++ " enabled"];
    ["Custom Function"; "ON";
     "Support custom torch.autograd.Function export and execution"];
    ["Memory Optimizer";
     if String.eqb memory_optimizer "" then "OFF" else "ON";
     "Enable with env ORTMODULE_MEMORY_OPT_CONFIG=<config>"] ].

(** Every row of the feature table has the three entries that
    [_log_feature_stats] indexes. *)
Definition feature_rows_well_formed (rows : list (list string)) : Prop :=
  Forall (fun row => length row = 3%nat) rows.

Section FeatureStats.

Context {Schema ModelProto Bytes RandomStates TorchModule Buffer : Type}.

(** [_log_feature_stats]: the value returned is the text handed to
    [self._logger.warning], [None] when nothing is logged. *)
Definition _log_feature_stats (env : LogEnvironment)
  : M (@Store Schema ModelProto Bytes RandomStates TorchModule Buffer)
      (option string) :=
  let rank := match distributed_rank env with Some r => r | None => 0 end in
  if negb (rank =? 0) then mret None
  else
    append_feature
      [ "Auto Fallback";
        if negb (fallback_disabled env) then "ON" else "OFF";
        "Fallback to PyTorch when encountering unsupported ops" ];;
    export_mode ← setting _export_mode;
    let mode := if bool_decide (export_mode = Some TRAINING)
                then "training" else "inference" in
    let mode := LogColor_UNDERLINE env ++ mode ++ LogColor_ENDC env in
    let stat :=
      LF ++ LF ++ LogColor_HEADER env
      ++ "***** ONNX Runtime Training (ORTModule) is accelerating your model *****"
      ++ LogColor_ENDC env ++ LF ++ LF in
    let stat :=
      stat ++ "ORTModule is enabled with following features ON/OFF for ["
      ++ mode ++ "] mode:" ++ LF ++ LF in
    rows ← read _feature_map;
    stat ← lift_outcome (feature_lines stat rows);
    let stat :=
      stat ++ LF ++ LogColor_WARNING env
      ++ "There were one or more warnings or errors raised while exporting the PyTorch model."
      ++ LF in
    let stat :=
      stat
      ++ "Please enable INFO level logging with DebugOptions to view all warnings and errors."
      ++ LogColor_ENDC env ++ LF ++ LF in
    let stat :=
      stat ++ "Export duration: " ++ export_duration_in_ms env
      ++ " milliseconds" ++ LF in
    let stat :=
      stat ++ "Versions: ONNX Runtime - " ++ onnxruntime_version env
      ++ ", ONNX - " ++ onnx_version env ++ LF ++ LF in
    let stat :=
      stat ++ LogColor_HEADER env
      ++ "************************************************************************"
      ++ LogColor_ENDC env ++ LF ++ LF in
    mret (Some stat).

End FeatureStats.

(** ** More concrete managers *)

Module Examples.

(** The collaborators of [Scenario], with a shape inference or a graph
    builder that may fail and a given provider info for ort devices. *)
Definition ext (inference_fails builder_fails : bool)
    (provider_info : list (string * list (string * string)))
  : @Externals Z Scenario.Inputs (list string) (list string) Z
               (option torch_device) unit Z :=
  {| _extract_schema := _extract_schema Scenario.ext;
     input_names_of := input_names_of Scenario.ext;
     input_shape_of := input_shape_of Scenario.ext;
     input_names_require_grad_of := input_names_require_grad_of Scenario.ext;
     input_dynamic_axes_of :=
       fun _ _ => {[ "x" := {[ 0 := "batch" ]}; "y" := {[ 0 := "rows" ]} ]};
     parse_outputs_for_onnx_export_and_extract_schema :=
       fun _ i r =>
         (Returns (["y"], {[ "y" := {[ 0 := "batch" ]} ]}, Scenario.in_rank i),
          r + 1);
     deepcopy_and_flatten := deepcopy_and_flatten Scenario.ext;
     _combine_input_buffers_initializers :=
       _combine_input_buffers_initializers Scenario.ext;
     format_density := format_density Scenario.ext;
     get_device_from_module := get_device_from_module Scenario.ext;
     get_device_from_inputs := get_device_from_inputs Scenario.ext;
     get_exception_as_string := get_exception_as_string Scenario.ext;
     repr_names := repr_names Scenario.ext;
     torch_onnx_export := torch_onnx_export Scenario.ext;
     load_model_from_string := load_model_from_string Scenario.ext;
     _post_process_after_export := _post_process_after_export Scenario.ext;
     infer_shapes :=
       fun m r =>
         (if inference_fails then Raises (External "Incomplete symbolic shape inference")
          else Returns m, r + 1);
     graph_input := graph_input Scenario.ext;
     SerializeToString := SerializeToString Scenario.ext;
     graph_builder_initialize :=
       fun _ _ =>
         if builder_fails then Raises (External "Invalid model") else Returns tt;
     user_input_names := user_input_names Scenario.ext;
     get_ort_device_provider_info := fun _ => provider_info;
     ortmodule_loglevel_to_onnxruntime_c_loglevel :=
       ortmodule_loglevel_to_onnxruntime_c_loglevel Scenario.ext;
     _are_deterministic_algorithms_enabled :=
       _are_deterministic_algorithms_enabled Scenario.ext;
     _defined_from_envvar :=
       fun name default =>
         if String.eqb name "ORTMODULE_CONV_ALGO_SEARCH" then "DEFAULT"
         else default;
     execution_model_filepath := execution_model_filepath Scenario.ext |}.

(** The settings of [Scenario] with another export mode, other extra
    exporter arguments and saving switched on or off. *)
Definition settings_with (mode : option TrainingMode)
    (extra : gmap string string) (save : bool)
  : @Settings (option torch_device) unit :=
  let st := Scenario.init_settings (Some Scenario.cpu) true false in
  {| class_name := class_name st;
     _original_module := _original_module st;
     named_parameters := named_parameters st;
     named_buffers := named_buffers st;
     _debug_options :=
       {| save_onnx_models_save := save;
          save_onnx_models_path := ".";
          save_onnx_models_name_prefix := "model";
          logging_log_level := 2 |};
     _skip_check := _skip_check st;
     _propagate_cast_ops_strategy := _propagate_cast_ops_strategy st;
     _propagate_cast_ops_level := _propagate_cast_ops_level st;
     _propagate_cast_ops_allow := _propagate_cast_ops_allow st;
     _export_mode := mode;
     _export_extra_kwargs := extra;
     _run_symbolic_shape_infer := _run_symbolic_shape_infer st;
     _enable_custom_autograd_function := _enable_custom_autograd_function st;
     ONNX_OPSET_VERSION := ONNX_OPSET_VERSION st;
     is_rocm_pytorch := is_rocm_pytorch st;
     _use_external_gpu_allocator := true;
     _torch_alloc := None;
     _torch_free := None;
     _torch_empty_cache := None;
     _enable_grad_acc_optimization := _enable_grad_acc_optimization st;
     _use_memory_efficient_gradient := _use_memory_efficient_gradient st;
     _enable_compute_optimizer := _enable_compute_optimizer st;
     _enable_sparse_optimizer := _enable_sparse_optimizer st;
     _print_input_density := _print_input_density st |}.

(** A manager as [__init__] leaves it, on a given device. *)
Definition store (st : @Settings (option torch_device) unit)
    (device : option torch_device)
  : @Store Z (list string) (list string) Z (option torch_device) unit :=
  {| random_states := 42;
     trace := [];
     self :=
       {| settings := st;
          exported_model := None;
          _graph_builder := None;
          _graph_initializer_names := ∅;
          _graph_initializer_names_to_train := ∅;
          _graph_initializers := [];
          _rt_inspector := {| input_inspector_enabled := false |};
          _input_info := None;
          _flattened_module_input_info := None;
          _module_output_schema := None;
          _warning_log_detected_during_export := false;
          _device := device;
          _original_model_has_changed := false;
          _feature_map := initial_feature_map 1 "" |} |}.

(** A manager that exported its model for a call without tensors (schema
    0) while the module was on the CPU, and whose module has no device
    any more. *)
Definition cached_without_device
  : @Store Z (list string) (list string) Z (option torch_device) unit :=
  {| random_states := 42;
     trace := [];
     self :=
       {| settings := Scenario.init_settings None true false;
          exported_model := Some ["x"; "w"; "b"];
          _graph_builder := None;
          _graph_initializer_names := ∅;
          _graph_initializer_names_to_train := ∅;
          _graph_initializers := [];
          _rt_inspector := {| input_inspector_enabled := false |};
          _input_info :=
            Some {| names := ["x"]; shape := []; require_grad_names := [];
                    dynamic_axes := ∅; schema := 0 |};
          _flattened_module_input_info :=
            Some {| names := ["x"]; shape := []; require_grad_names := [];
                    dynamic_axes := ∅; schema := 0 |};
          _module_output_schema := Some 0;
          _warning_log_detected_during_export := false;
          _device := Some Scenario.cpu;
          _original_model_has_changed := false;
          _feature_map := initial_feature_map 1 "" |} |}.

(** [self.__dict__] of a manager made where CUDA is available, and of one
    made where it is not: the values stand for the objects. *)
Definition dict_with_cuda : gmap string Z :=
  list_to_map
    [ ("_onnx_models", 1); ("_graph_builder", 2); ("_graph_info", 3);
      ("_execution_agent", 4); ("_torch_alloc", 4096); ("_torch_free", 8192);
      ("_torch_empty_cache", 12288); ("_skip_check", 14);
      ("_export_mode", 2) ].

Definition dict_without_cuda : gmap string Z :=
  list_to_map
    [ ("_onnx_models", 1); ("_graph_builder", 2); ("_graph_info", 3);
      ("_execution_agent", 4); ("_skip_check", 14); ("_export_mode", 2) ].

Definition log_environment (rank : option Z) : LogEnvironment :=
  {| distributed_rank := rank;
     fallback_disabled := false;
     LogColor_UNDERLINE := "";
     LogColor_ENDC := "";
     LogColor_HEADER := "";
     LogColor_WARNING := "";
     export_duration_in_ms := "1200";
     onnxruntime_version := "1.15.0";
     onnx_version := "1.14.0" |}.

End Examples.

(** ** The skip-check policy *)

Lemma land_1_l_testbit (s : Z) : Z.land 1 s = Z.b2z (Z.testbit s 0).
Proof.
  rewrite Z.land_comm. change 1 with (Z.ones 1).
  rewrite Z.land_ones by lia. change (2 ^ 1) with 2.
  symmetry. apply Z.bit0_mod.
Qed.

Lemma is_disabled_testbit (s : Z) : SkipCheck.is_disabled s = Z.testbit s 0.
Proof.
  unfold SkipCheck.is_disabled, SkipCheck.contains, SkipCheck.SKIP_CHECK_DISABLED.
  rewrite land_1_l_testbit. by destruct (Z.testbit s 0).
Qed.

Lemma contains_bits (c s : Z) :
  SkipCheck.contains c s = true <->
  forall i, Z.testbit c i = true -> Z.testbit s i = true.
Proof.
  unfold SkipCheck.contains. rewrite Z.eqb_eq. split.
  - intros H i Hc. rewrite <- H in Hc. rewrite Z.land_spec in Hc.
    by apply andb_true_iff in Hc as [_ ?].
  - intros H. apply Z.bits_inj'. intros i _. rewrite Z.land_spec.
    destruct (Z.testbit c i) eqn:Hc; [|done]. by rewrite (H i Hc).
Qed.

(** C1. When the disabled-override bit (bit 0) is present in the policy
    [s], [is_set] is false for every check value [c], whatever bits [c]
    has and whether or not they are present in [s].  Otherwise [is_set]
    is the membership test of [c] in [s], which is true exactly when
    every bit of [c] is present in [s]. *)
Theorem is_set_kill_switch (s c : Z) :
  (Z.testbit s 0 = true -> SkipCheck.is_set s c = false) /\
  (Z.testbit s 0 = false ->
   SkipCheck.is_set s c = (Z.land c s =? c) /\
   (SkipCheck.is_set s c = true <->
    forall i, Z.testbit c i = true -> Z.testbit s i = true)).
Proof.
  unfold SkipCheck.is_set. rewrite is_disabled_testbit. split; intros ->.
  - done.
  - simpl. split; [done|]. apply contains_bits.
Qed.

Lemma is_set_kill_switch_witness :
  SkipCheck.is_set 15 (Z.lor SkipCheck.SKIP_CHECK_DEVICE
                             SkipCheck.SKIP_CHECK_EXECUTION_AGENT) = false /\
  SkipCheck.is_set 14 SkipCheck.SKIP_CHECK_DEVICE = (Z.land 2 14 =? 2).
Proof.
  split.
  - exact (proj1 (is_set_kill_switch 15
                    (Z.lor SkipCheck.SKIP_CHECK_DEVICE
                           SkipCheck.SKIP_CHECK_EXECUTION_AGENT)) eq_refl).
  - exact (proj1 (proj2 (is_set_kill_switch 14 SkipCheck.SKIP_CHECK_DEVICE)
                    eq_refl)).
Defined.

(** C10. When [ORTMODULE_SKIPCHECK_POLICY] is not in the environment, the
    policy a new manager gets is the union of the device, gradient-graph
    and execution-agent skip bits, the disabled-override bit is unset, and
    [is_set] is true for each of the three checks. *)
Theorem default_skip_check_policy
    (parse : gmap string string -> string -> list string)
    (environ : gmap string string) :
  environ !! "ORTMODULE_SKIPCHECK_POLICY" = None ->
  exists policy,
    SkipCheck.init_skip_check parse environ = Returns policy /\
    policy = Z.lor (Z.lor SkipCheck.SKIP_CHECK_DEVICE
                          SkipCheck.SKIP_CHECK_BUILD_GRADIENT)
                   SkipCheck.SKIP_CHECK_EXECUTION_AGENT /\
    SkipCheck.is_disabled policy = false /\
    SkipCheck.is_set policy SkipCheck.SKIP_CHECK_DISABLED = false /\
    SkipCheck.is_set policy SkipCheck.SKIP_CHECK_DEVICE = true /\
    SkipCheck.is_set policy SkipCheck.SKIP_CHECK_BUILD_GRADIENT = true /\
    SkipCheck.is_set policy SkipCheck.SKIP_CHECK_EXECUTION_AGENT = true.
Proof.
  intros Henv. eexists. unfold SkipCheck.init_skip_check. rewrite Henv.
  split; [reflexivity|]. by vm_compute.
Qed.

Lemma default_skip_check_policy_witness :
  exists policy,
    SkipCheck.init_skip_check (fun _ _ => []) ∅ = Returns policy /\
    policy = Z.lor (Z.lor SkipCheck.SKIP_CHECK_DEVICE
                          SkipCheck.SKIP_CHECK_BUILD_GRADIENT)
                   SkipCheck.SKIP_CHECK_EXECUTION_AGENT /\
    SkipCheck.is_disabled policy = false /\
    SkipCheck.is_set policy SkipCheck.SKIP_CHECK_DISABLED = false /\
    SkipCheck.is_set policy SkipCheck.SKIP_CHECK_DEVICE = true /\
    SkipCheck.is_set policy SkipCheck.SKIP_CHECK_BUILD_GRADIENT = true /\
    SkipCheck.is_set policy SkipCheck.SKIP_CHECK_EXECUTION_AGENT = true.
Proof.
  apply (default_skip_check_policy (fun _ _ => []) ∅). reflexivity.
Defined.

(** ** The export cache *)

Ltac unfold_monad :=
  unfold append_feature, attribute, assign, emit, read, setting,
    set_random_states, get_random_states, when, lift_outcome, call_random,
    try_except in *;
  unfold mbind, mret, M_bind, M_ret, bind, ret, raise, gets, get, modify in *.

Ltac run_method :=
  unfold_monad; simpl in *;
  repeat (case_match; simplify_eq/=; try done).

Section ExportCache.

Context {Schema : Type} `{!EqDecision Schema}.
Context {Inputs ModelProto Bytes RandomStates TorchModule Buffer
         Density : Type}.
Variable ext : @Externals Schema Inputs ModelProto Bytes RandomStates
                          TorchModule Buffer Density.

Abbreviation Store :=
  (@Store Schema ModelProto Bytes RandomStates TorchModule Buffer).

(** [_set_device_from_module] assigns [self._device] and nothing else,
    and makes no call that is traced. *)
Lemma set_device_from_module_frame (inputs : Inputs) (s : Store) :
  exists d, (_set_device_from_module ext inputs s).2 = with_self (set_device d) s.
Proof.
  unfold _set_device_from_module. run_method; eauto.
  exists (_device (self s)). by destruct s as [? ? []].
Qed.

Lemma set_device_from_module_no_device (inputs : Inputs) (s : Store) :
  get_device_from_module ext (_original_module (settings (self s))) = None ->
  get_device_from_inputs ext inputs = None ->
  _set_device_from_module ext inputs s =
    (Raises (ORTModuleDeviceException
               (RuntimeError "A device must be specified in the model or inputs!")),
     with_self (set_device None) s).
Proof.
  intros Hm Hi. unfold _set_device_from_module. unfold_monad. simpl.
  rewrite Hm, Hi. simpl. by destruct (_device (self s)).
Qed.

(** What [_get_exported_model] leaves behind on both exits: the cached
    model and the change signal are untouched, while [self._input_info]
    already holds the schema of this call. *)
Lemma get_exported_model_frame (sch : Schema) (inputs : Inputs) (s : Store) :
  exported_model (self (_get_exported_model ext sch inputs s).2)
    = exported_model (self s) /\
  _original_model_has_changed (self (_get_exported_model ext sch inputs s).2)
    = _original_model_has_changed (self s) /\
  settings (self (_get_exported_model ext sch inputs s).2)
    = settings (self s) /\
  last_schema (self (_get_exported_model ext sch inputs s).2) = Some sch.
Proof.
  unfold _get_exported_model, last_schema. run_method.
Qed.

Ltac use_frames :=
  repeat match goal with
  | H : _set_device_from_module ?e ?i ?s = (_, ?s') |- _ =>
      let F := fresh "F" in
      destruct (set_device_from_module_frame i s) as [? F];
      rewrite H in F; simpl in F; subst s'; clear H
  | H : _get_exported_model ?e ?sch ?i ?s = (_, ?s') |- _ =>
      let F := fresh "F" in
      pose proof (get_exported_model_frame sch i s) as F;
      rewrite H in F; simpl in F; destruct F as (?&?&?&?); clear H
  end.

(** [_export_model] refines the export decision: it answers [False]
    without touching the store when no export is needed, and goes on to
    device resolution and export otherwise. *)
Lemma export_model_cache_hit (inputs : Inputs) (s : Store) :
  needs_export (self s) (_extract_schema ext inputs) = false ->
  _export_model ext inputs s = (Returns false, s).
Proof.
  unfold needs_export, last_schema. intros H.
  apply orb_false_iff in H as [H Hc]. apply orb_false_iff in H as [Hm Hs].
  apply negb_false_iff in Hm. apply bool_decide_eq_false in Hs.
  unfold _export_model. unfold_monad. simpl. rewrite Hm.
  destruct (_input_info (self s)) as [info|] eqn:Hi; simpl in *.
  - rewrite bool_decide_eq_true_2, Hc; [done|].
    destruct (decide (_extract_schema ext inputs = schema info)); [done|].
    exfalso. apply Hs. congruence.
  - exfalso. by apply Hs.
Qed.

Lemma export_model_cache_miss (inputs : Inputs) (s : Store) :
  needs_export (self s) (_extract_schema ext inputs) = true ->
  (_export_model ext inputs s).1 <> Returns false.
Proof.
  unfold needs_export, last_schema, _export_model.
  intros H. run_method.
  match goal with
  | Hc : negb _ = true, Hs : bool_decide (_ = _) = true |- _ =>
      apply negb_true_iff in Hc; apply bool_decide_eq_true in Hs;
      rewrite Hc, orb_false_r, Hs in H
  end.
  apply bool_decide_eq_true in H. congruence.
Qed.

(** A call that returns [True] leaves an exported model, the schema of
    the call as the last schema, the change signal as it was, and the
    random states as they were on entry. *)
Lemma export_model_returns_true (inputs : Inputs) (s s' : Store) :
  _export_model ext inputs s = (Returns true, s') ->
  truthy (exported_model (self s')) = true /\
  last_schema (self s') = Some (_extract_schema ext inputs) /\
  _original_model_has_changed (self s') = _original_model_has_changed (self s) /\
  random_states s' = random_states s.
Proof.
  unfold _export_model, last_schema.
  intros H. run_method.
  all: use_frames; unfold last_schema in *; simpl in *; done.
Qed.

(** No exit of [_export_model] resets the change signal. *)
Lemma export_model_keeps_change_signal (inputs : Inputs) (s : Store) :
  _original_model_has_changed (self (_export_model ext inputs s).2) =
  _original_model_has_changed (self s).
Proof.
  unfold _export_model. run_method.
  all: use_frames; simpl in *; done.
Qed.

(** C5. After a call of [_export_model] that returns [True] with the
    change signal unset, the next call with an equal schema needs no
    export: it returns [False] and leaves the store as it is.  That
    lasts until the schema changes or the change signal is raised: a
    call with a different schema, or a call after
    [signal_model_changed], does not return [False]. *)
Theorem export_cache_hit_after_export
    (inputs inputs' : Inputs) (s s' : Store) :
  _export_model ext inputs s = (Returns true, s') ->
  _original_model_has_changed (self s) = false ->
  _extract_schema ext inputs' = _extract_schema ext inputs ->
  needs_export (self s') (_extract_schema ext inputs') = false /\
  _export_model ext inputs' s' = (Returns false, s') /\
  (forall other : Inputs,
     _extract_schema ext other <> _extract_schema ext inputs ->
     needs_export (self s') (_extract_schema ext other) = true /\
     (_export_model ext other s').1 <> Returns false) /\
  (_export_model ext inputs' (signal_model_changed s').2).1 <> Returns false.
Proof.
  intros Hexp Hsig Hsch.
  apply export_model_returns_true in Hexp as (Hm & Hl & Hc & _).
  assert (needs_export (self s') (_extract_schema ext inputs') = false) as Hn.
  { unfold needs_export. rewrite Hm, Hl, Hc, Hsig, Hsch. simpl.
    rewrite bool_decide_eq_false_2; [done|]. by intros []. }
  split; [done|]. split; [by apply export_model_cache_hit|]. split.
  - intros other Hne.
    assert (needs_export (self s') (_extract_schema ext other) = true) as Ho.
    { unfold needs_export. rewrite Hm, Hl. simpl.
      rewrite bool_decide_eq_true_2; [done|]. congruence. }
    split; [done|]. by apply export_model_cache_miss.
  - apply export_model_cache_miss. unfold needs_export. simpl.
    by rewrite !orb_true_r.
Qed.

(** C9, as amended.  When neither the module nor the inputs give a
    device, [_set_device_from_module] raises the device exception,
    whatever device was recorded before.  A call of [_export_model] on
    which an export is needed (no exported model, or a stored schema that
    differs from the one of the call, or a stored schema and the change
    signal) ends in that exception, raised before [_get_exported_model]
    is entered; a call that needs no export returns [False] and resolves
    no device.  In both cases no call to the exporter or to any other
    collaborator is made and the cached model is kept. *)
Theorem no_device_raises_before_export (inputs : Inputs) (s : Store) :
  get_device_from_module ext (_original_module (settings (self s))) = None ->
  get_device_from_inputs ext inputs = None ->
  _set_device_from_module ext inputs s =
    (Raises (ORTModuleDeviceException
               (RuntimeError "A device must be specified in the model or inputs!")),
     with_self (set_device None) s) /\
  (exported_model (self s) = None \/
   (exists info,
      _input_info (self s) = Some info /\
      (schema info <> _extract_schema ext inputs \/
       _original_model_has_changed (self s) = true)) ->
   _export_model ext inputs s =
     (Raises (ORTModuleDeviceException
                (RuntimeError "A device must be specified in the model or inputs!")),
      with_self (set_device None) s)) /\
  (needs_export (self s) (_extract_schema ext inputs) = false ->
   _export_model ext inputs s = (Returns false, s)) /\
  trace (_export_model ext inputs s).2 = trace s /\
  exported_model (self (_export_model ext inputs s).2)
    = exported_model (self s).
Proof.
  intros Hm Hi.
  pose proof (set_device_from_module_no_device inputs s Hm Hi) as Hd.
  split; [done|]. split; [|split; [apply export_model_cache_hit|]].
  - intros Hneed. unfold _export_model. unfold_monad. simpl.
    destruct Hneed as [Hnone|(info & Hinfo & Hneed)].
    + rewrite Hnone. simpl. by rewrite Hd.
    + destruct (truthy (exported_model (self s))); simpl; [|by rewrite Hd].
      rewrite Hinfo. simpl. destruct Hneed as [Hne|Hc].
      * rewrite bool_decide_eq_false_2 by congruence. simpl. by rewrite Hd.
      * case_bool_decide; simpl; rewrite ?Hc; simpl; by rewrite Hd.
  - unfold _export_model. unfold_monad. simpl.
    destruct (truthy (exported_model (self s))); simpl; [|by rewrite Hd].
    destruct (_input_info (self s)) as [info|]; simpl; [|done].
    case_bool_decide; simpl; [|by rewrite Hd].
    destruct (_original_model_has_changed (self s)); simpl; [|done].
    by rewrite Hd.
Qed.

End ExportCache.

Lemma export_cache_hit_after_export_witness :
  needs_export (self Scenario.exported_rank2)
               (_extract_schema Scenario.ext Scenario.rank2) = false /\
  _export_model Scenario.ext Scenario.rank2 Scenario.exported_rank2
    = (Returns false, Scenario.exported_rank2) /\
  (forall other : Scenario.Inputs,
     _extract_schema Scenario.ext other
       <> _extract_schema Scenario.ext Scenario.rank2 ->
     needs_export (self Scenario.exported_rank2)
                  (_extract_schema Scenario.ext other) = true /\
     (_export_model Scenario.ext other Scenario.exported_rank2).1
       <> Returns false) /\
  (_export_model Scenario.ext Scenario.rank2
     (signal_model_changed Scenario.exported_rank2).2).1 <> Returns false.
Proof.
  apply (export_cache_hit_after_export Scenario.ext Scenario.rank2
           Scenario.rank2 (Scenario.init_store (Some Scenario.cpu) true false)
           Scenario.exported_rank2).
  - vm_compute. reflexivity.
  - reflexivity.
  - reflexivity.
Defined.

Lemma no_device_raises_before_export_witness :
  _export_model Scenario.ext Scenario.no_tensor
      (Scenario.init_store None true false) =
    (Raises (ORTModuleDeviceException
               (RuntimeError "A device must be specified in the model or inputs!")),
     with_self (set_device None) (Scenario.init_store None true false)).
Proof.
  apply (no_device_raises_before_export Scenario.ext Scenario.no_tensor
           (Scenario.init_store None true false)).
  - reflexivity.
  - reflexivity.
  - left. reflexivity.
Defined.

(** C9, the claim as stated fails: with a model cached for the schema of
    the call and the change signal unset, a call on which neither the
    module nor the inputs give a device returns [False]; no device is
    resolved and no exception is raised. *)
Lemma cache_hit_skips_device_resolution :
  get_device_from_module Scenario.ext
    (_original_module (settings (self Examples.cached_without_device)))
    = None /\
  get_device_from_inputs Scenario.ext Scenario.no_tensor = None /\
  _export_model Scenario.ext Scenario.no_tensor Examples.cached_without_device
    = (Returns false, Examples.cached_without_device) /\
  (forall e,
     (_export_model Scenario.ext Scenario.no_tensor
        Examples.cached_without_device).1 <> Raises e).
Proof.
  split; [reflexivity|]. split; [reflexivity|].
  assert (_export_model Scenario.ext Scenario.no_tensor
            Examples.cached_without_device
          = (Returns false, Examples.cached_without_device)) as Hcall.
  { vm_compute. reflexivity. }
  split; [exact Hcall|]. intros e. by rewrite Hcall.
Qed.

(** ** The graph builder configuration *)

Section GraphBuilder.

Context {Schema : Type} `{!EqDecision Schema}.
Context {Inputs ModelProto Bytes RandomStates TorchModule Buffer
         Density : Type}.
Variable ext : @Externals Schema Inputs ModelProto Bytes RandomStates
                          TorchModule Buffer Density.

Abbreviation Store :=
  (@Store Schema ModelProto Bytes RandomStates TorchModule Buffer).

Lemma elem_of_select_initializer_names
    (params : list (string * nn_Parameter)) (declared : gset string)
    (name : string) :
  name ∈ select_initializer_names params declared <->
  (exists p, (name, p) ∈ params) /\ name ∈ declared.
Proof.
  unfold select_initializer_names.
  rewrite list_elem_of_In, in_map_iff. split.
  - intros ([n p] & <- & Hin). apply filter_In in Hin as [Hin Hd].
    apply bool_decide_eq_true in Hd. split; [|done].
    exists p. by apply list_elem_of_In.
  - intros [[p Hp] Hd]. exists (name, p). split; [done|].
    apply filter_In. split; [by apply list_elem_of_In|].
    by apply bool_decide_eq_true.
Qed.

Lemma elem_of_select_initializer_names_to_train
    (params : list (string * nn_Parameter)) (declared : gset string)
    (name : string) :
  name ∈ select_initializer_names_to_train params declared <->
  (exists p, (name, p) ∈ params /\ requires_grad p = true) /\ name ∈ declared.
Proof.
  unfold select_initializer_names_to_train.
  rewrite list_elem_of_In, in_map_iff. split.
  - intros ([n p] & <- & Hin). apply filter_In in Hin as [Hin Hd].
    apply andb_true_iff in Hd as [Hg Hd].
    apply bool_decide_eq_true in Hd. split; [|done].
    exists p. split; [by apply list_elem_of_In|done].
  - intros [(p & Hp & Hg) Hd]. exists (name, p). split; [done|].
    apply filter_In. split; [by apply list_elem_of_In|].
    apply andb_true_iff. split; [done|]. by apply bool_decide_eq_true.
Qed.

(** C6. With an exported model in the cache, [_initialize_graph_builder]
    hands the graph builder a configuration in which the initializer
    names are the parameter names that the exported model declares as
    inputs, the names to train are those of the parameters that require
    a gradient and are declared as inputs (a parameter the export does
    not declare is left out, and the method raises nothing of its own:
    its outcome is the builder's), and the gradient graph is built
    exactly in training mode. *)
Theorem initialize_graph_builder_config
    (s : Store) (model : ModelProto) (info : _InputInfo) :
  exported_model (self s) = Some model ->
  _input_info (self s) = Some info ->
  exists cfg,
    trace (_initialize_graph_builder ext s).2
      = EvGraphBuilderInitialize cfg :: trace s /\
    (_initialize_graph_builder ext s).1
      = graph_builder_initialize ext (SerializeToString ext model) cfg /\
    (forall name,
       name ∈ initializer_names cfg <->
       (exists p, (name, p) ∈ named_parameters (settings (self s))) /\
       name ∈ graph_input ext model) /\
    (forall name,
       name ∈ initializer_names_to_train cfg <->
       (exists p, (name, p) ∈ named_parameters (settings (self s)) /\
                  requires_grad p = true) /\
       name ∈ graph_input ext model) /\
    (build_gradient_graph cfg = true <->
     _export_mode (settings (self s)) = Some TRAINING) /\
    enable_caching cfg = _enable_grad_acc_optimization (settings (self s)).
Proof.
  intros Hm Hi. eexists.
  unfold _initialize_graph_builder. unfold_monad. simpl.
  rewrite Hm, Hi. simpl.
  destruct (graph_builder_initialize _ _ _) as [[]|e] eqn:Hinit; simpl.
  all: split; [reflexivity|]; split; [by rewrite Hinit|]; simpl.
  all: split; [intros name; rewrite elem_of_select_initializer_names;
               by rewrite elem_of_list_to_set|].
  all: split; [intros name; rewrite elem_of_select_initializer_names_to_train;
               by rewrite elem_of_list_to_set|].
  all: split; [apply bool_decide_eq_true|done].
Qed.

End GraphBuilder.

Lemma initialize_graph_builder_config_witness :
  exists cfg,
    trace (_initialize_graph_builder Scenario.ext Scenario.exported_rank2).2
      = EvGraphBuilderInitialize cfg :: trace Scenario.exported_rank2 /\
    initializer_names cfg = ["w"; "b"] /\
    initializer_names_to_train cfg = ["w"] /\
    build_gradient_graph cfg = true.
Proof.
  destruct (initialize_graph_builder_config Scenario.ext
              Scenario.exported_rank2 ["x"; "w"; "b"]
              {| names := ["x"]; shape := []; require_grad_names := [];
                 dynamic_axes := ∅; schema := 2 |})
    as (cfg & Htrace & _).
  - vm_compute. reflexivity.
  - vm_compute. reflexivity.
  - exists cfg. split; [exact Htrace|].
    vm_compute in Htrace. injection Htrace as <-. by vm_compute.
Defined.

(** ** The session configuration *)

Section Session.

Context {Schema : Type} `{!EqDecision Schema}.
Context {Inputs ModelProto Bytes RandomStates TorchModule Buffer
         Density : Type}.
Variable ext : @Externals Schema Inputs ModelProto Bytes RandomStates
                          TorchModule Buffer Density.

Abbreviation Store :=
  (@Store Schema ModelProto Bytes RandomStates TorchModule Buffer).

(** C7, as amended.  The provider list follows the device type.  For a
    cuda device it is the accelerator provider (ROCM or CUDA) and then
    the CPU provider, for a cpu device the CPU provider alone: those two
    are in the specified order.  For an ort device it is the single
    provider that the provider info of the device reports, with no CPU
    provider after it, and for any other device type no provider list is
    built. *)
Theorem session_providers_by_device_type (s : Store) (device : torch_device) :
  _device (self s) = Some device ->
  (dev_type device = "cpu" ->
   exists options,
     _get_session_config ext s
       = (Returns (options, Some ["CPUExecutionProvider"], Some [[]]), s) /\
     provider_order_as_specified device (Some ["CPUExecutionProvider"])) /\
  (dev_type device = "cuda" ->
   (forall options providers provider_options,
      _get_session_config ext s
        = (Returns (options, providers, provider_options), s) ->
      providers = Some [accelerator_provider (is_rocm_pytorch (settings (self s))); "CPUExecutionProvider"]) /\
   (_use_external_gpu_allocator (settings (self s)) = false \/
    (is_Some (_torch_alloc (settings (self s))) /\
     is_Some (_torch_free (settings (self s))) /\
     is_Some (_torch_empty_cache (settings (self s)))) ->
    exists options provider_options,
      _get_session_config ext s
        = (Returns (options,
                    Some [accelerator_provider (is_rocm_pytorch (settings (self s))); "CPUExecutionProvider"],
                    provider_options), s)) /\
   provider_order_as_specified device
     (Some [accelerator_provider (is_rocm_pytorch (settings (self s))); "CPUExecutionProvider"])) /\
  (dev_type device = "ort" ->
   forall name provider_options,
     get_ort_device_provider_info ext (dev_index device)
       = [(name, provider_options)] ->
     exists options,
       _get_session_config ext s
         = (Returns (options, Some [name], Some [provider_options]), s)) /\
  (dev_type device <> "cuda" -> dev_type device <> "cpu" ->
   dev_type device <> "ort" ->
   exists options,
     _get_session_config ext s = (Returns (options, None, None), s)).
Proof.
  intros Hd. unfold _get_session_config. unfold_monad. simpl. rewrite Hd.
  split; [|split; [|split]].
  - intros Ht. rewrite Ht. simpl. eexists. split; [reflexivity|].
    eexists. split; [done|]. split; [done|]. by intros [].
  - intros Ht. rewrite Ht. simpl. split; [|split].
    + intros options providers popts.
      destruct (is_rocm_pytorch (settings (self s))),
        (_use_external_gpu_allocator (settings (self s))),
        (_torch_alloc (settings (self s))),
        (_torch_free (settings (self s))),
        (_torch_empty_cache (settings (self s)));
        simpl; intros; by simplify_eq.
    + intros [Hoff|([a Ha] & [f Hf] & [e He])];
        destruct (is_rocm_pytorch (settings (self s)));
        destruct (_use_external_gpu_allocator (settings (self s)));
        simpl; rewrite ?Ha, ?Hf, ?He; simpl; eauto; discriminate.
    + eexists. split; [done|]. split; [by destruct (is_rocm_pytorch (settings (self s)))|].
      intros _. eexists _, _. split; [done|]. clear.
      by destruct (is_rocm_pytorch (settings (self s))).
  - intros -> name popts ->. simpl. eauto.
  - intros H1 H2 H3.
    apply String.eqb_neq in H1, H2, H3. rewrite H1, H2, H3. simpl. eauto.
Qed.

End Session.

Lemma session_providers_by_device_type_witness :
  (exists options,
     _get_session_config Scenario.ext (Scenario.on_device Scenario.cpu)
       = (Returns (options, Some ["CPUExecutionProvider"], Some [[]]),
          Scenario.on_device Scenario.cpu) /\
     provider_order_as_specified Scenario.cpu (Some ["CPUExecutionProvider"])) /\
  (exists options,
     _get_session_config Scenario.ext (Scenario.on_device Scenario.ort0)
       = (Returns (options, Some ["TestExecutionProvider"], Some [[]]),
          Scenario.on_device Scenario.ort0)) /\
  (exists options,
     _get_session_config Scenario.ext (Scenario.on_device Scenario.meta)
       = (Returns (options, None, None), Scenario.on_device Scenario.meta)) /\
  (exists options provider_options,
     _get_session_config Scenario.ext (Scenario.on_device Scenario.cuda0)
       = (Returns (options,
                   Some ["CUDAExecutionProvider"; "CPUExecutionProvider"],
                   provider_options),
          Scenario.on_device Scenario.cuda0)).
Proof.
  split; [|split; [|split]].
  - apply (session_providers_by_device_type Scenario.ext
             (Scenario.on_device Scenario.cpu) Scenario.cpu); reflexivity.
  - apply (session_providers_by_device_type Scenario.ext
             (Scenario.on_device Scenario.ort0) Scenario.ort0); reflexivity.
  - apply (session_providers_by_device_type Scenario.ext
             (Scenario.on_device Scenario.meta) Scenario.meta);
      [reflexivity|discriminate..].
  - apply (session_providers_by_device_type Scenario.ext
             (Scenario.on_device Scenario.cuda0) Scenario.cuda0);
      [reflexivity..|].
    right. simpl. eauto.
Defined.

(** C7, the claim as stated fails: on an ort device the only provider is
    the one its provider info reports, and on a device type that no branch
    handles there is no provider list at all; neither ends with the CPU
    provider. *)
Lemma provider_order_counterexample :
  (exists options provider_options,
     _get_session_config Scenario.ext (Scenario.on_device Scenario.ort0)
       = (Returns (options, Some ["TestExecutionProvider"], provider_options),
          Scenario.on_device Scenario.ort0) /\
     ~ provider_order_as_specified Scenario.ort0
         (Some ["TestExecutionProvider"])) /\
  (exists options provider_options,
     _get_session_config Scenario.ext (Scenario.on_device Scenario.meta)
       = (Returns (options, None, provider_options),
          Scenario.on_device Scenario.meta) /\
     ~ provider_order_as_specified Scenario.meta None).
Proof.
  split.
  - eexists _, _. split; [vm_compute; reflexivity|].
    intros (l & Hl & Hlast & _). by simplify_eq.
  - eexists _, _. split; [vm_compute; reflexivity|].
    intros (l & Hl & _). discriminate.
Qed.

(** ** The sparsity inspector *)

Lemma trace_extended_nil (t : list Event) : t = ([] ++ t)%list.
Proof. reflexivity. Qed.

Lemma trace_extended_cons (e : Event) (l calls t : list Event) :
  l = (calls ++ t)%list -> e :: l = ((e :: calls) ++ t)%list.
Proof. by intros ->. Qed.

Ltac trace_extended :=
  repeat first [ apply trace_extended_nil | apply trace_extended_cons ].

Section Inspector.

Context {Schema : Type} `{!EqDecision Schema}.
Context {Inputs ModelProto Bytes RandomStates TorchModule Buffer
         Density : Type}.
Variable ext : @Externals Schema Inputs ModelProto Bytes RandomStates
                          TorchModule Buffer Density.

Abbreviation Store :=
  (@Store Schema ModelProto Bytes RandomStates TorchModule Buffer).

(** C8, as amended.  On a call with an initialized graph builder the
    input inspector is enabled exactly when the sparse-optimization flag
    or the print-input-density flag is on.  The sparsity results are
    computed, and their names written to the graph-transformer
    configuration, only when the sparse-optimization flag is on, and
    then only for a result set that is not empty.  The inspector is
    disabled again exactly when it was enabled with the
    print-input-density flag off; with that flag on, diagnostics-only
    mode included, it is left enabled. *)
Theorem conditional_optimizations_inspector
    (config : TrainingGraphTransformerConfiguration) (inputs : Inputs)
    (s : Store) (builder : OrtModuleGraphBuilder) :
  _graph_builder (self s) = Some builder ->
  exists config' calls,
    (_enable_conditional_optimizations ext config inputs s).1
      = Returns config' /\
    trace (_enable_conditional_optimizations ext config inputs s).2
      = (calls ++ trace s)%list /\
    (EvEnableInputInspector ∈ calls <->
     _enable_sparse_optimizer (settings (self s)) = true \/
     _print_input_density (settings (self s)) = true) /\
    (EvCombineInputBuffersInitializers ∈ calls <->
     _enable_sparse_optimizer (settings (self s)) = true) /\
    (EvDisableInputInspector ∈ calls <->
     _enable_sparse_optimizer (settings (self s)) = true /\
     _print_input_density (settings (self s)) = false) /\
    sparse_label_input_names config' =
      (if _enable_sparse_optimizer (settings (self s))
          && (0 <? length (sparsity_results ext builder inputs (self s)).2)%nat
       then map fst (sparsity_results ext builder inputs (self s)).2
       else sparse_label_input_names config) /\
    sparse_embedding_input_names config' =
      (if _enable_sparse_optimizer (settings (self s))
          && (0 <? length (sparsity_results ext builder inputs (self s)).1)%nat
       then map fst (sparsity_results ext builder inputs (self s)).1
       else sparse_embedding_input_names config) /\
    input_inspector_enabled
      (_rt_inspector
         (self (_enable_conditional_optimizations ext config inputs s).2)) =
      (if _enable_sparse_optimizer (settings (self s))
          || _print_input_density (settings (self s))
       then _print_input_density (settings (self s))
       else input_inspector_enabled (_rt_inspector (self s))).
Proof.
  intros Hb.
  unfold _enable_conditional_optimizations, sparsity_results.
  unfold_monad. simpl.
  destruct (_enable_sparse_optimizer (settings (self s))) eqn:Hs,
           (_print_input_density (settings (self s))) eqn:Hp;
    simpl; rewrite ?Hb; simpl.
  1,2: destruct (_combine_input_buffers_initializers _ _ _ _ _ _ _)
         as [[|e embed] [|l label]]; simpl.
  all: eexists _, _; split; [reflexivity|]; simpl;
       split; [trace_extended|].
  all: rewrite ?elem_of_cons, ?elem_of_nil; intuition congruence.
Qed.

End Inspector.

Lemma conditional_optimizations_inspector_witness :
  exists config',
    (_enable_conditional_optimizations Scenario.ext Scenario.transformer_config
       Scenario.rank2 (Scenario.built_rank2 true false)).1 = Returns config' /\
    sparse_label_input_names config' = ["labels"] /\
    sparse_embedding_input_names config' = [] /\
    input_inspector_enabled
      (_rt_inspector
         (self (_enable_conditional_optimizations Scenario.ext
                  Scenario.transformer_config Scenario.rank2
                  (Scenario.built_rank2 true false)).2)) = false.
Proof.
  destruct (conditional_optimizations_inspector Scenario.ext
              Scenario.transformer_config Scenario.rank2
              (Scenario.built_rank2 true false)
              {| gb_initialized :=
                   Some (["x"; "w"; "b"],
                         {| initializer_names := ["w"; "b"];
                            initializer_names_to_train := ["w"];
                            input_names_require_grad := [];
                            build_gradient_graph := true;
                            enable_caching := false;
                            loglevel := 2;
                            use_memory_efficient_gradient := false |}) |})
    as (config' & calls & Hret & _ & _ & _ & _ & Hlabel & Hembed & Hinsp).
  - vm_compute. reflexivity.
  - exists config'. split; [exact Hret|].
    split; [exact Hlabel|]. split; [exact Hembed|]. exact Hinsp.
Defined.

(** C8, the claim as stated fails: in diagnostics-only mode (density
    printed, sparse optimizer off) the only call made is the one that
    enables the inspector, and the inspector is still enabled when the
    method returns. *)
Lemma diagnostics_only_keeps_inspector_enabled :
  _enable_sparse_optimizer (settings (self (Scenario.built_rank2 false true)))
    = false /\
  _print_input_density (settings (self (Scenario.built_rank2 false true)))
    = true /\
  trace (_enable_conditional_optimizations Scenario.ext
           Scenario.transformer_config Scenario.rank2
           (Scenario.built_rank2 false true)).2
    = EvEnableInputInspector :: trace (Scenario.built_rank2 false true) /\
  input_inspector_enabled
    (_rt_inspector
       (self (_enable_conditional_optimizations Scenario.ext
                Scenario.transformer_config Scenario.rank2
                (Scenario.built_rank2 false true)).2)) <> false.
Proof.
  split; [reflexivity|]. split; [reflexivity|].
  split; [vm_compute; reflexivity|]. vm_compute. discriminate.
Qed.

(** ** Where the export path leaves the cache and the random states *)

(** C2.  The exporter fails on a call of rank 3 while a model exported
    for rank 2 is cached.  The call raises the model-export exception with
    the exporter's text and the cached model is kept, but the last schema
    is now the one of the failed call: [_get_exported_model] assigns
    [self._input_info] before it runs the exporter.  The next call of rank
    3 therefore needs no export and is answered with the model of rank
    2. *)
Theorem failed_export_overwrites_last_schema :
  last_schema (self Scenario.exported_rank2) = Some 2 /\
  (_export_model Scenario.ext Scenario.rank3_failing Scenario.exported_rank2).1
    = Raises (ORTModuleONNXModelException
                (RuntimeError (export_error_prefix
                               ++ "Unsupported ONNX operator"))) /\
  exported_model
    (self (_export_model Scenario.ext Scenario.rank3_failing
             Scenario.exported_rank2).2)
    = exported_model (self Scenario.exported_rank2) /\
  last_schema
    (self (_export_model Scenario.ext Scenario.rank3_failing
             Scenario.exported_rank2).2) = Some 3 /\
  needs_export
    (self (_export_model Scenario.ext Scenario.rank3_failing
             Scenario.exported_rank2).2)
    (_extract_schema Scenario.ext Scenario.rank3) = false /\
  (_export_model Scenario.ext Scenario.rank3
     (_export_model Scenario.ext Scenario.rank3_failing
        Scenario.exported_rank2).2).1 = Returns false.
Proof. by vm_compute. Qed.

(** C3.  With a model cached for rank 2, [signal_model_changed] makes
    the next call of rank 2 export again.  No assignment resets
    [self._original_model_has_changed], so the signal is still set after
    that call and the call after it, with the same schema, exports once
    more. *)
Theorem change_signal_is_never_reset :
  needs_export (self Scenario.exported_rank2)
               (_extract_schema Scenario.ext Scenario.rank2) = false /\
  (_export_model Scenario.ext Scenario.rank2
     (signal_model_changed Scenario.exported_rank2).2).1 = Returns true /\
  _original_model_has_changed
    (self (_export_model Scenario.ext Scenario.rank2
             (signal_model_changed Scenario.exported_rank2).2).2) = true /\
  (_export_model Scenario.ext Scenario.rank2
     (_export_model Scenario.ext Scenario.rank2
        (signal_model_changed Scenario.exported_rank2).2).2).1 = Returns true.
Proof. by vm_compute. Qed.

(** C4.  A call on which the exporter consumes randomness and then fails
    raises with the random states as the exporter left them:
    [set_random_states] is the last statement before [return True] and is
    not reached when the export raises. *)
Theorem failed_export_leaves_random_states_perturbed :
  random_states Scenario.exported_rank2 = 42 /\
  (_export_model Scenario.ext Scenario.rank3_failing Scenario.exported_rank2).1
    = Raises (ORTModuleONNXModelException
                (RuntimeError (export_error_prefix
                               ++ "Unsupported ONNX operator"))) /\
  random_states
    (_export_model Scenario.ext Scenario.rank3_failing
       Scenario.exported_rank2).2 = 44.
Proof. by vm_compute. Qed.

(** ** More on the skip-check policy *)

Lemma contains_lor (c1 c2 s : Z) :
  SkipCheck.contains (Z.lor c1 c2) s
  = SkipCheck.contains c1 s && SkipCheck.contains c2 s.
Proof.
  apply eq_true_iff_eq. rewrite andb_true_iff, !contains_bits. split.
  - intros H. split; intros i Hi; apply H; rewrite Z.lor_spec, Hi;
      [done|by rewrite orb_true_r].
  - intros [H1 H2] i Hi. rewrite Z.lor_spec in Hi.
    apply orb_true_iff in Hi as [Hi|Hi]; auto.
Qed.

(** X1. A check value that combines several checks is set exactly when
    each of them is set. *)
Theorem is_set_combined_check (s c1 c2 : Z) :
  SkipCheck.is_set s (Z.lor c1 c2)
  = SkipCheck.is_set s c1 && SkipCheck.is_set s c2.
Proof.
  unfold SkipCheck.is_set. rewrite contains_lor.
  by destruct (SkipCheck.is_disabled s), (SkipCheck.contains c1 s),
       (SkipCheck.contains c2 s).
Qed.

Lemma contains_pow2 (k s : Z) :
  0 <= k -> SkipCheck.contains (2 ^ k) s = Z.testbit s k.
Proof.
  intros Hk. apply eq_true_iff_eq. rewrite contains_bits. split.
  - intros H. apply H. rewrite Z.pow2_bits_eqb by done. apply Z.eqb_refl.
  - intros H i Hi. rewrite Z.pow2_bits_eqb in Hi by done.
    apply Z.eqb_eq in Hi. by subst.
Qed.

(** Every member is a single bit. *)
Lemma member_single_bit (n : string) (c : Z) :
  SkipCheck.member n = Returns c ->
  exists k, 0 <= k /\ c = 2 ^ k.
Proof.
  unfold SkipCheck.member. intros Hn.
  repeat case_match; simplify_eq;
    [exists 0|exists 1|exists 2|exists 3]; by split.
Qed.

Lemma contains_member_lor (n : string) (c a b : Z) :
  SkipCheck.member n = Returns c ->
  SkipCheck.contains c (Z.lor a b)
  = SkipCheck.contains c a || SkipCheck.contains c b.
Proof.
  intros (k & Hk & ->)%member_single_bit.
  rewrite !contains_pow2 by done. apply Z.lor_spec.
Qed.

Lemma contains_member_fold (n : string) (c : Z) (flags : list Z) (x : Z) :
  SkipCheck.member n = Returns c ->
  SkipCheck.contains c (fold_left Z.lor flags x)
  = SkipCheck.contains c x || existsb (SkipCheck.contains c) flags.
Proof.
  intros Hn. revert x. induction flags as [|f flags IH]; intros x; simpl.
  - by rewrite orb_false_r.
  - rewrite IH, (contains_member_lor n) by done. by rewrite orb_assoc.
Qed.

(** Two members contain one another only when they are the same member. *)
Lemma contains_member_member (n n' : string) (c c' : Z) :
  SkipCheck.member n = Returns c -> SkipCheck.member n' = Returns c' ->
  SkipCheck.contains c c' = true <-> n = n'.
Proof.
  unfold SkipCheck.member. intros Hn Hn'.
  repeat case_match; simplify_eq;
    repeat match goal with
           | H : String.eqb _ _ = true |- _ => apply String.eqb_eq in H; subst
           end;
    split; try done; try (intros ->; done).
Qed.

Lemma members_returns (names : list string) (flags : list Z) :
  SkipCheck.members names = Returns flags ->
  Forall2 (fun n c => SkipCheck.member n = Returns c) names flags.
Proof.
  revert flags. induction names as [|n names IH]; intros flags; simpl.
  - intros [= <-]. constructor.
  - destruct (SkipCheck.member n) as [c|e] eqn:Hn; [|done].
    destruct (SkipCheck.members names) as [cs|e] eqn:Hns; [|done].
    intros [= <-]. constructor; auto.
Qed.

Lemma members_of_known (names : list string) :
  Forall (fun n => exists c, SkipCheck.member n = Returns c) names ->
  exists flags, SkipCheck.members names = Returns flags.
Proof.
  induction 1 as [|n names [c Hc] _ [cs Hcs]]; simpl; [by eexists|].
  rewrite Hc, Hcs. by eexists.
Qed.

Lemma existsb_contains_members (n : string) (c : Z)
    (names : list string) (flags : list Z) :
  SkipCheck.member n = Returns c ->
  Forall2 (fun n c => SkipCheck.member n = Returns c) names flags ->
  existsb (SkipCheck.contains c) flags = true <-> n ∈ names.
Proof.
  intros Hn. induction 1 as [|n' c' names flags Hn' _ IH]; simpl.
  - rewrite elem_of_nil. split; [done|tauto].
  - rewrite orb_true_iff, elem_of_cons, IH.
    by rewrite (contains_member_member n n' c c').
Qed.

(** X2. When [ORTMODULE_SKIPCHECK_POLICY] is set to a non-empty list of
    member names, the policy is their union: a member is contained in it
    exactly when its name is listed, and a check is set exactly when its
    name is listed and [SKIP_CHECK_DISABLED] is not. *)
Theorem skip_check_policy_from_environment
    (parse : gmap string string -> string -> list string)
    (environ : gmap string string) :
  is_Some (environ !! "ORTMODULE_SKIPCHECK_POLICY") ->
  parse environ "ORTMODULE_SKIPCHECK_POLICY" <> [] ->
  Forall (fun n => exists c, SkipCheck.member n = Returns c)
         (parse environ "ORTMODULE_SKIPCHECK_POLICY") ->
  exists policy,
    SkipCheck.init_skip_check parse environ = Returns policy /\
    forall n c, SkipCheck.member n = Returns c ->
      (SkipCheck.contains c policy = true <->
       n ∈ parse environ "ORTMODULE_SKIPCHECK_POLICY") /\
      (SkipCheck.is_set policy c = true <->
       n ∈ parse environ "ORTMODULE_SKIPCHECK_POLICY" /\
       "SKIP_CHECK_DISABLED" ∉ parse environ "ORTMODULE_SKIPCHECK_POLICY").
Proof.
  intros [v Hv] Hne Hknown. unfold SkipCheck.init_skip_check. rewrite Hv.
  destruct (members_of_known _ Hknown) as [flags Hflags]. rewrite Hflags.
  apply members_returns in Hflags.
  destruct Hflags as [|n0 c0 names flags Hn0 Hrest]; [done|]. simpl.
  eexists. split; [reflexivity|].
  assert (forall n c, SkipCheck.member n = Returns c ->
            SkipCheck.contains c (fold_left Z.lor flags c0) = true <->
            n ∈ n0 :: names) as Hin.
  { intros n c Hn. rewrite (contains_member_fold n) by done.
    rewrite orb_true_iff, elem_of_cons.
    rewrite (contains_member_member n n0 c c0) by done.
    by rewrite (existsb_contains_members n c names flags). }
  intros n c Hn. split; [by apply Hin|].
  unfold SkipCheck.is_set, SkipCheck.is_disabled.
  rewrite andb_true_iff, negb_true_iff, (Hin n c Hn).
  rewrite <- (Hin "SKIP_CHECK_DISABLED" SkipCheck.SKIP_CHECK_DISABLED eq_refl).
  destruct (SkipCheck.contains SkipCheck.SKIP_CHECK_DISABLED _);
    intuition congruence.
Qed.

Lemma skip_check_policy_from_environment_witness :
  exists policy,
    SkipCheck.init_skip_check
      (fun _ _ => ["SKIP_CHECK_DEVICE"; "SKIP_CHECK_DISABLED"])
      {[ "ORTMODULE_SKIPCHECK_POLICY" := "SKIP_CHECK_DEVICE|SKIP_CHECK_DISABLED" ]}
    = Returns policy.
Proof.
  destruct (skip_check_policy_from_environment
              (fun _ _ => ["SKIP_CHECK_DEVICE"; "SKIP_CHECK_DISABLED"])
              {[ "ORTMODULE_SKIPCHECK_POLICY" := "SKIP_CHECK_DEVICE|SKIP_CHECK_DISABLED" ]})
    as (policy & Hp & _).
  - by eexists.
  - discriminate.
  - repeat constructor; by eexists.
  - by exists policy.
Defined.

(** X3. When the variable is set, an empty list of names makes
    [__init__] raise a [TypeError] (the [reduce] has no initial value),
    and a list with an unknown name raises a [KeyError] for the first
    unknown name. *)
Theorem skip_check_policy_errors
    (parse : gmap string string -> string -> list string)
    (environ : gmap string string) :
  is_Some (environ !! "ORTMODULE_SKIPCHECK_POLICY") ->
  (parse environ "ORTMODULE_SKIPCHECK_POLICY" = [] ->
   exists msg, SkipCheck.init_skip_check parse environ = Raises (TypeError msg)) /\
  (forall known unknown rest,
     parse environ "ORTMODULE_SKIPCHECK_POLICY" = (known ++ unknown :: rest)%list ->
     Forall (fun n => exists c, SkipCheck.member n = Returns c) known ->
     (forall c, SkipCheck.member unknown <> Returns c) ->
     SkipCheck.init_skip_check parse environ = Raises (KeyError unknown)).
Proof.
  intros [v Hv]. unfold SkipCheck.init_skip_check. rewrite Hv. split.
  - intros ->. simpl. by eexists.
  - intros known unknown rest -> Hknown Hunknown.
    assert (SkipCheck.members (known ++ unknown :: rest)%list
            = Raises (KeyError unknown)) as ->; [|done].
    induction Hknown as [|n known [c Hc] _ IH]; simpl.
    + unfold SkipCheck.member in *. repeat case_match; try done;
        by edestruct Hunknown.
    + by rewrite Hc, IH.
Qed.

Lemma skip_check_policy_errors_witness :
  SkipCheck.init_skip_check
    (fun _ _ => ["SKIP_CHECK_DEVICE"; "SKIP_DEVICE"])
    {[ "ORTMODULE_SKIPCHECK_POLICY" := "SKIP_CHECK_DEVICE|SKIP_DEVICE" ]}
  = Raises (KeyError "SKIP_DEVICE").
Proof.
  apply (proj2 (skip_check_policy_errors
                  (fun _ _ => ["SKIP_CHECK_DEVICE"; "SKIP_DEVICE"])
                  {[ "ORTMODULE_SKIPCHECK_POLICY" := "SKIP_CHECK_DEVICE|SKIP_DEVICE" ]}
                  ltac:(by eexists))
           ["SKIP_CHECK_DEVICE"] "SKIP_DEVICE" []).
  - reflexivity.
  - repeat constructor; by eexists.
  - intros c. discriminate.
Defined.

(** ** More on the export path *)

Section ExportPath.

Context {Schema : Type} `{!EqDecision Schema}.
Context {Inputs ModelProto Bytes RandomStates TorchModule Buffer
         Density : Type}.
Variable ext : @Externals Schema Inputs ModelProto Bytes RandomStates
                          TorchModule Buffer Density.

Abbreviation Store :=
  (@Store Schema ModelProto Bytes RandomStates TorchModule Buffer).

Lemma with_self_set_device_same (s : Store) (d : option torch_device) :
  _device (self s) = d -> with_self (set_device d) s = s.
Proof. intros <-. by destruct s as [? ? []]. Qed.

Lemma set_device_from_module_returns (inputs : Inputs) (s s1 : Store) (u : unit) :
  _set_device_from_module ext inputs s = (Returns u, s1) ->
  exists d,
    py_or (get_device_from_module ext (_original_module (settings (self s))))
          (get_device_from_inputs ext inputs) = Some d /\
    s1 = with_self (set_device (Some d)) s.
Proof.
  unfold _set_device_from_module. unfold_monad. simpl.
  destruct (py_or _ _) as [d|] eqn:Hd; simpl.
  - destruct (_device (self s)) as [d0|] eqn:Hcur; simpl.
    + case_bool_decide as Hne; simpl; intros [= <-]; exists d; [done|].
      split; [done|]. rewrite with_self_set_device_same; [done|].
      destruct (decide (Some d0 = Some d)) as [<-|]; [done|]. by destruct Hne.
    + intros [= <-]. by exists d.
  - by destruct (_device (self s)).
Qed.

Lemma get_exported_model_returns (sch : Schema) (inputs : Inputs)
    (s s2 : Store) (model : ModelProto) :
  _get_exported_model ext sch inputs s = (Returns model, s2) ->
  (exists kw,
     trace s2 = EvExport kw (_export_extra_kwargs (settings (self s)))
                :: EvParseOutputs :: trace s) /\
  exported_model (self s2) = exported_model (self s) /\
  _original_model_has_changed (self s2) = _original_model_has_changed (self s) /\
  _device (self s2) = _device (self s) /\
  settings (self s2) = settings (self s) /\
  last_schema (self s2) = Some sch.
Proof.
  unfold _get_exported_model, last_schema. intros H. run_method.
  all: split; [by eexists|done].
Qed.

(** X4. [_set_device_from_module] takes the device of the module when it
    has one and the device of the inputs otherwise; with such a device it
    returns, and the only attribute it may have assigned is
    [self._device], which then is that device. *)
Theorem set_device_from_module_resolves (inputs : Inputs) (s : Store) :
  (forall d,
     get_device_from_module ext (_original_module (settings (self s)))
       = Some d ->
     _set_device_from_module ext inputs s
       = (Returns tt, with_self (set_device (Some d)) s)) /\
  (forall d,
     get_device_from_module ext (_original_module (settings (self s)))
       = None ->
     get_device_from_inputs ext inputs = Some d ->
     _set_device_from_module ext inputs s
       = (Returns tt, with_self (set_device (Some d)) s)).
Proof.
  assert (forall d,
            py_or (get_device_from_module ext
                     (_original_module (settings (self s))))
                  (get_device_from_inputs ext inputs) = Some d ->
            _set_device_from_module ext inputs s
              = (Returns tt, with_self (set_device (Some d)) s)) as H.
  { intros d Hd. unfold _set_device_from_module. unfold_monad. simpl.
    rewrite Hd. destruct (_device (self s)) as [d0|] eqn:Hcur; simpl; [|done].
    case_bool_decide as Hne; simpl; [done|].
    rewrite with_self_set_device_same; [done|].
    destruct (decide (Some d0 = Some d)) as [<-|]; [done|].
    by destruct Hne. }
  split.
  - intros d Hm. apply H. by rewrite Hm.
  - intros d Hm Hi. apply H. by rewrite Hm.
Qed.

(** X5. Whether it returns or raises, [_get_exported_model] leaves the
    cached exported model, the change signal, the recorded device and the
    settings as they were, and [self._input_info] holds the schema it was
    given. *)
Theorem get_exported_model_keeps_cache
    (sch : Schema) (inputs : Inputs) (s : Store) :
  exported_model (self (_get_exported_model ext sch inputs s).2)
    = exported_model (self s) /\
  _original_model_has_changed (self (_get_exported_model ext sch inputs s).2)
    = _original_model_has_changed (self s) /\
  _device (self (_get_exported_model ext sch inputs s).2) = _device (self s) /\
  settings (self (_get_exported_model ext sch inputs s).2)
    = settings (self s) /\
  last_schema (self (_get_exported_model ext sch inputs s).2) = Some sch.
Proof.
  unfold _get_exported_model, last_schema. run_method.
Qed.


(** X7. An extra exporter argument that repeats a required one stops
    [_get_exported_model] before the exporter is called: the assertion
    fails inside the [try] block, so it too comes out as an
    [ORTModuleONNXModelException]. *)
Theorem clashing_exporter_argument_is_wrapped
    (sch : Schema) (inputs : Inputs) (s : Store)
    (output_names : list string)
    (output_dynamic_axes : gmap string (gmap Z string))
    (output_schema : Schema) (r : RandomStates)
    (training : TrainingMode) (key : string) :
  parse_outputs_for_onnx_export_and_extract_schema ext
    (_original_module (settings (self s))) inputs (random_states s)
    = (Returns (output_names, output_dynamic_axes, output_schema), r) ->
  _export_mode (settings (self s)) = Some training ->
  key ∈ required_export_kwargs_keys ->
  is_Some (_export_extra_kwargs (settings (self s)) !! key) ->
  (exists msg,
     (_get_exported_model ext sch inputs s).1
       = Raises (ORTModuleONNXModelException (RuntimeError msg))) /\
  trace (_get_exported_model ext sch inputs s).2 = EvParseOutputs :: trace s.
Proof.
  intros Hparse Hmode Hkey Hextra.
  unfold _get_exported_model. unfold_monad. simpl.
  rewrite Hparse. simpl. rewrite Hmode. simpl.
  rewrite bool_decide_eq_false_2.
  - simpl. split; [by eexists|done].
  - intros Hsize. apply size_empty_inv in Hsize.
    apply leibniz_equiv in Hsize.
    assert (key ∈ (∅ : gset string)) as Hin; [|set_solver].
    rewrite <- Hsize. apply elem_of_intersection. split; [|done].
    by apply elem_of_dom.
Qed.

(** X8. Without an export mode, as on the abstract manager,
    [_get_exported_model] raises a bare [AssertionError]; by then the
    module has been run to analyse its outputs and [self._input_info] has
    been replaced, but the exporter has not been called. *)
Theorem export_mode_is_asserted
    (sch : Schema) (inputs : Inputs) (s : Store)
    (output_names : list string)
    (output_dynamic_axes : gmap string (gmap Z string))
    (output_schema : Schema) (r : RandomStates) :
  parse_outputs_for_onnx_export_and_extract_schema ext
    (_original_module (settings (self s))) inputs (random_states s)
    = (Returns (output_names, output_dynamic_axes, output_schema), r) ->
  _export_mode (settings (self s)) = None ->
  (_get_exported_model ext sch inputs s).1
    = Raises (AssertionError
                "Please use a concrete instance of ExecutionManager") /\
  trace (_get_exported_model ext sch inputs s).2 = EvParseOutputs :: trace s /\
  last_schema (self (_get_exported_model ext sch inputs s).2) = Some sch.
Proof.
  intros Hparse Hmode.
  unfold _get_exported_model, last_schema. unfold_monad. simpl.
  rewrite Hparse. simpl. by rewrite Hmode.
Qed.


(** X10. [_export_model] returns [False] exactly when the export decision
    is negative, and then it has changed nothing: no device is resolved
    and no collaborator is called.  In particular a manager without an
    exported model never returns [False]. *)
Theorem export_model_returns_false_iff (inputs : Inputs) (s s' : Store) :
  (_export_model ext inputs s = (Returns false, s') <->
   needs_export (self s) (_extract_schema ext inputs) = false /\ s' = s) /\
  (exported_model (self s) = None ->
   (_export_model ext inputs s).1 <> Returns false).
Proof.
  split.
  - split.
    + intros H.
      destruct (needs_export (self s) (_extract_schema ext inputs)) eqn:Hn.
      * apply (export_model_cache_miss ext) in Hn. by rewrite H in Hn.
      * apply (export_model_cache_hit ext) in Hn. split; [done|]. congruence.
    + intros [Hn ->]. by apply export_model_cache_hit.
  - intros Hnone. apply export_model_cache_miss.
    unfold needs_export. by rewrite Hnone.
Qed.

(** X11. A call of [_export_model] that returns [True] has resolved a
    device, has analysed the outputs and then exported, has saved the
    exported model (when saving is on) before the symbolic shape inference
    (when that is on), and has put the random states back to what they
    were on entry. *)
Theorem export_model_returns_true_after (inputs : Inputs) (s s' : Store) :
  _export_model ext inputs s = (Returns true, s') ->
  random_states s' = random_states s /\
  is_Some (exported_model (self s')) /\
  is_Some (_device (self s')) /\
  _device (self s')
    = py_or (get_device_from_module ext (_original_module (settings (self s))))
            (get_device_from_inputs ext inputs) /\
  settings (self s') = settings (self s) /\
  exists kw,
    trace s' =
      ((if _run_symbolic_shape_infer (settings (self s))
        then [EvInferShapes] else [])
       ++ (if save_onnx_models_save (_debug_options (settings (self s)))
           then [EvSaveExportedModel] else [])
       ++ [EvExport kw (_export_extra_kwargs (settings (self s)));
           EvParseOutputs]
       ++ trace s)%list.
Proof.
  unfold _export_model. intros H. run_method.
  all: repeat match goal with
       | H : _set_device_from_module _ _ _ = _ |- _ =>
           apply set_device_from_module_returns in H as (d & Hd & ->)
       | H : _get_exported_model _ _ _ _ = _ |- _ =>
           apply get_exported_model_returns in H
             as ([kw Htr] & Hm & Hc & Hdev & Hset & Hl); simpl in *
       end.
  all: rewrite Hset in *; simpl in *.
  all: repeat match goal with
       | H : ?b = _ |- context [if ?b then _ else _] => rewrite H
       end.
  all: rewrite Hdev, Hd, Htr.
  all: split_and!; try done; try (by eexists); congruence.
Qed.

(** X13. When the symbolic shape inference fails on a first export, the
    exception passes through [_export_model], the model cached is the one
    that came out of the exporter, the random states stay as the
    inference left them, and the next call with the same inputs needs no
    export. *)
Theorem shape_inference_failure_keeps_raw_export
    (inputs : Inputs) (s s1 s2 : Store) (model : ModelProto)
    (e : exn) (r : RandomStates) :
  exported_model (self s) = None ->
  _original_model_has_changed (self s) = false ->
  _run_symbolic_shape_infer (settings (self s)) = true ->
  _set_device_from_module ext inputs s = (Returns tt, s1) ->
  _get_exported_model ext (_extract_schema ext inputs) inputs s1
    = (Returns model, s2) ->
  infer_shapes ext model (random_states s2) = (Raises e, r) ->
  (_export_model ext inputs s).1 = Raises e /\
  exported_model (self (_export_model ext inputs s).2) = Some model /\
  random_states (_export_model ext inputs s).2 = r /\
  _export_model ext inputs (_export_model ext inputs s).2
    = (Returns false, (_export_model ext inputs s).2).
Proof.
  intros Hnone Hsig Hrun Hdev Hexp Hinfer.
  pose proof (set_device_from_module_returns _ _ _ _ Hdev) as (d & _ & ->).
  pose proof (get_exported_model_returns _ _ _ _ _ Hexp)
    as (_ & _ & Hc & _ & Hset & Hl). simpl in *.
  assert (_export_model ext inputs s
          = (Raises e,
             with_random_states r
               (with_self id
                  {| random_states := random_states s2;
                     trace := EvInferShapes ::
                       (if save_onnx_models_save
                             (_debug_options (settings (self s)))
                        then [EvSaveExportedModel] else [])%list ++ trace s2;
                     self := set_exported_model (Some model) (self s2) |})))
    as Hcall.
  { unfold _export_model. unfold_monad. simpl.
    rewrite Hnone. simpl. rewrite Hdev, Hexp. simpl. rewrite Hset.
    destruct (save_onnx_models_save _); simpl; rewrite Hset, Hrun; simpl;
      rewrite Hinfer; simpl; by destruct s2 as [? ? []]. }
  rewrite Hcall. simpl. split; [done|]. split; [done|]. split; [done|].
  apply export_model_cache_hit. unfold needs_export, last_schema in *.
  simpl. rewrite Hc, Hsig. simpl.
  destruct (_input_info (self s2)) as [info|]; simpl in *; [|done].
  rewrite bool_decide_eq_false_2; [done|]. intros Hne. by apply Hne.
Qed.

End ExportPath.

(** ** More on the graph builder and the sparsity inspector *)

Lemma filter_sublist {A} (f : A -> bool) (l : list A) :
  List.filter f l `sublist_of` l.
Proof.
  induction l as [|x l IH]; simpl; [constructor|].
  destruct (f x); by constructor.
Qed.

Lemma map_sublist {A B} (g : A -> B) (l1 l2 : list A) :
  l1 `sublist_of` l2 -> map g l1 `sublist_of` map g l2.
Proof. induction 1; simpl; by constructor. Qed.

Lemma filter_filter_sublist {A} (f g : A -> bool) (l : list A) :
  List.filter (fun x => f x && g x) l `sublist_of` List.filter g l.
Proof.
  induction l as [|x l IH]; simpl; [constructor|].
  destruct (f x), (g x); simpl; first [done | by constructor].
Qed.

Lemma zip_map_fst_snd {A B} (l : list (A * B)) :
  zip (map fst l) (map snd l) = l.
Proof. induction l as [|[a b] l IH]; simpl; [done|]. by rewrite IH. Qed.

Section GraphBuilderState.

Context {Schema : Type} `{!EqDecision Schema}.
Context {Inputs ModelProto Bytes RandomStates TorchModule Buffer
         Density : Type}.
Variable ext : @Externals Schema Inputs ModelProto Bytes RandomStates
                          TorchModule Buffer Density.

Abbreviation Store :=
  (@Store Schema ModelProto Bytes RandomStates TorchModule Buffer).

(** Filtering the parameters by the set of selected names selects the
    same parameters again. *)
Lemma filter_selected_names
    (params : list (string * nn_Parameter)) (declared : gset string) :
  List.filter
    (fun np => bool_decide
                 (np.1 ∈ (list_to_set (select_initializer_names params declared)
                          : gset string)))
    params
  = List.filter (fun np => bool_decide (np.1 ∈ declared)) params.
Proof.
  apply filter_ext_in. intros [n p] Hin. simpl.
  apply bool_decide_ext. rewrite elem_of_list_to_set.
  rewrite elem_of_select_initializer_names. split; [by intros [_ ?]|].
  intros Hd. split; [|done]. exists p. by apply list_elem_of_In.
Qed.

(** X14. After [_initialize_graph_builder] has returned, the builder
    holds the serialized exported model and the configuration.  The
    initializer names of the configuration follow the order of the
    module's parameters, not that of the graph inputs; the names to
    train are among them, in the same order; [self._graph_initializers]
    holds, position by position, the parameters that carry the
    initializer names. *)
Theorem initialize_graph_builder_returns
    (s s' : Store) (model : ModelProto) (u : unit) :
  exported_model (self s) = Some model ->
  _initialize_graph_builder ext s = (Returns u, s') ->
  exists cfg,
    _graph_builder (self s')
      = Some {| gb_initialized := Some (SerializeToString ext model, cfg) |} /\
    initializer_names cfg
      `sublist_of` map fst (named_parameters (settings (self s))) /\
    initializer_names_to_train cfg `sublist_of` initializer_names cfg /\
    _graph_initializer_names (self s') = list_to_set (initializer_names cfg) /\
    _graph_initializer_names_to_train (self s')
      = list_to_set (initializer_names_to_train cfg) /\
    _graph_initializer_names_to_train (self s')
      ⊆ _graph_initializer_names (self s') /\
    zip (initializer_names cfg) (_graph_initializers (self s'))
      `sublist_of` named_parameters (settings (self s)) /\
    length (_graph_initializers (self s')) = length (initializer_names cfg).
Proof.
  intros Hm. unfold _initialize_graph_builder. unfold_monad. simpl.
  rewrite Hm. simpl.
  destruct (_input_info (self s)) as [info|]; simpl; [|done].
  destruct (graph_builder_initialize _ _ _) as [[]|e]; simpl; [|done].
  intros [= <- <-]. simpl. eexists. split; [reflexivity|]. simpl.
  rewrite filter_selected_names.
  unfold select_initializer_names, select_initializer_names_to_train.
  split; [apply map_sublist, filter_sublist|].
  split; [apply map_sublist, filter_filter_sublist|].
  split; [done|]. split; [done|].
  split.
  - intros n. rewrite !elem_of_list_to_set.
    intros Hn. eapply elem_of_sublist; [exact Hn|].
    apply map_sublist, filter_filter_sublist.
  - split; [|by rewrite !length_map].
    rewrite zip_map_fst_snd. apply filter_sublist.
Qed.



(** X17. With one of the two flags on and no graph builder,
    [_enable_conditional_optimizations] raises an [AttributeError] before
    the inspector is touched and before any collaborator is called. *)
Theorem conditional_optimizations_without_builder
    (config : TrainingGraphTransformerConfiguration) (inputs : Inputs)
    (s : Store) :
  _graph_builder (self s) = None ->
  _enable_sparse_optimizer (settings (self s)) = true \/
  _print_input_density (settings (self s)) = true ->
  (exists msg,
     (_enable_conditional_optimizations ext config inputs s).1
       = Raises (AttributeError msg)) /\
  _rt_inspector (self (_enable_conditional_optimizations ext config inputs s).2)
    = _rt_inspector (self s) /\
  trace (_enable_conditional_optimizations ext config inputs s).2 = trace s.
Proof.
  intros Hb Hflag. unfold _enable_conditional_optimizations.
  unfold_monad. simpl.
  destruct (_enable_sparse_optimizer (settings (self s))),
           (_print_input_density (settings (self s)));
    simpl; rewrite ?Hb; simpl.
  1-3: split; [by eexists|done].
  by destruct Hflag.
Qed.

End GraphBuilderState.

(** ** More on the session configuration *)

Section SessionConfig.

Context {Schema : Type} `{!EqDecision Schema}.
Context {Inputs ModelProto Bytes RandomStates TorchModule Buffer
         Density : Type}.
Variable ext : @Externals Schema Inputs ModelProto Bytes RandomStates
                          TorchModule Buffer Density.

Abbreviation Store :=
  (@Store Schema ModelProto Bytes RandomStates TorchModule Buffer).


(** X19. On a cuda device that is not ROCm the option map of the GPU
    provider names the device by its index and carries a convolution
    algorithm search that is [HEURISTIC] or [EXHAUSTIVE], whatever
    [ORTMODULE_CONV_ALGO_SEARCH] holds; on ROCm it has no cuDNN option. *)
Theorem session_config_cuda_options (s : Store) (device : torch_device)
    (options : SessionOptions) (providers : option (list string))
    (provider_options : option (list (list (string * string)))) :
  _device (self s) = Some device ->
  dev_type device = "cuda" ->
  (_get_session_config ext s).1
    = Returns (options, providers, provider_options) ->
  exists gpu_options,
    provider_options = Some [gpu_options; []] /\
    gpu_options !! 0%nat = Some ("device_id", py_str (dev_index device)) /\
    (is_rocm_pytorch (settings (self s)) = false ->
     exists search,
       gpu_options !! 1%nat = Some ("cudnn_conv_algo_search", search) /\
       (search = "HEURISTIC" \/ search = "EXHAUSTIVE")) /\
    (is_rocm_pytorch (settings (self s)) = true ->
     forall key value,
       (key, value) ∈ gpu_options ->
       key ∈ [ "device_id"; "gpu_external_alloc"; "gpu_external_free";
               "gpu_external_empty_cache" ]).
Proof.
  intros Hd Ht. unfold _get_session_config. unfold_monad. simpl.
  rewrite Hd. simpl. rewrite Ht. simpl.
  destruct (is_rocm_pytorch (settings (self s))) eqn:Hrocm; simpl.
  - destruct (_use_external_gpu_allocator (settings (self s))); simpl.
    + destruct (_torch_alloc (settings (self s))); simpl; [|done].
      destruct (_torch_free (settings (self s))); simpl; [|done].
      destruct (_torch_empty_cache (settings (self s))); simpl; [|done].
      intros [= <- <- <-]. eexists. split; [done|]. split; [done|].
      split; [done|]. intros _ key value.
      rewrite !elem_of_cons, !elem_of_nil. intros Hin.
      intuition (simplify_eq; auto).
    + intros [= <- <- <-]. eexists. split; [done|]. split; [done|].
      split; [done|]. intros _ key value.
      rewrite !elem_of_cons, !elem_of_nil. intros Hin.
      intuition (simplify_eq; auto).
  - set (search := _defined_from_envvar ext "ORTMODULE_CONV_ALGO_SEARCH"
                     "HEURISTIC").
    assert (exists v,
              (if String.eqb search "HEURISTIC" || String.eqb search "EXHAUSTIVE"
               then search else "HEURISTIC") = v /\
              (v = "HEURISTIC" \/ v = "EXHAUSTIVE")) as (v & -> & Hv).
    { destruct (String.eqb_spec search "HEURISTIC") as [->|]; simpl; [eauto|].
      destruct (String.eqb_spec search "EXHAUSTIVE") as [->|]; simpl; eauto. }
    destruct (_use_external_gpu_allocator (settings (self s))); simpl.
    + destruct (_torch_alloc (settings (self s))); simpl; [|done].
      destruct (_torch_free (settings (self s))); simpl; [|done].
      destruct (_torch_empty_cache (settings (self s))); simpl; [|done].
      intros [= <- <- <-]. eexists. split; [done|]. split; [done|].
      split; [eauto|done].
    + intros [= <- <- <-]. eexists. split; [done|]. split; [done|].
      split; [eauto|done].
Qed.

(** X20. When [_get_session_config] raises: without a recorded device
    it is an [AttributeError]; on an ort device whose provider info does
    not have exactly one entry it is an [AssertionError]; on a cuda
    device with the external allocator on and an allocator address that
    was never assigned it is an [AttributeError]. *)
Theorem session_config_failures (s : Store) :
  (_device (self s) = None ->
   exists msg, _get_session_config ext s = (Raises (AttributeError msg), s)) /\
  (forall device,
     _device (self s) = Some device -> dev_type device = "ort" ->
     length (get_ort_device_provider_info ext (dev_index device)) <> 1%nat ->
     exists msg, _get_session_config ext s = (Raises (AssertionError msg), s)) /\
  (forall device,
     _device (self s) = Some device -> dev_type device = "cuda" ->
     _use_external_gpu_allocator (settings (self s)) = true ->
     _torch_alloc (settings (self s)) = None ->
     exists msg, _get_session_config ext s = (Raises (AttributeError msg), s)).
Proof.
  unfold _get_session_config. unfold_monad. simpl. split_and!.
  - intros ->. by eexists.
  - intros device -> -> Hlen. simpl.
    apply Nat.eqb_neq in Hlen. rewrite Hlen. by eexists.
  - intros device -> -> Hext Halloc. simpl.
    destruct (is_rocm_pytorch (settings (self s))); simpl;
      rewrite Hext; simpl; rewrite Halloc; by eexists.
Qed.

End SessionConfig.

(** X21. Once [_get_torch_gpu_allocator_function_addresses] has run with
    CUDA available, [_get_session_config] does not fail on a cuda device:
    it returns the accelerator provider followed by the CPU provider. *)
Theorem session_config_after_allocator_addresses
    {Schema : Type} `{!EqDecision Schema}
    {Inputs ModelProto Bytes RandomStates TorchModule Buffer Density : Type}
    (ext : @Externals Schema Inputs ModelProto Bytes RandomStates
                      TorchModule Buffer Density)
    (s : @Store Schema ModelProto Bytes RandomStates TorchModule Buffer)
    (st : @Settings TorchModule Buffer)
    (alloc free empty_cache : Z) (device : torch_device) :
  settings (self s)
    = _get_torch_gpu_allocator_function_addresses true alloc free
        empty_cache st ->
  _device (self s) = Some device ->
  dev_type device = "cuda" ->
  exists options provider_options,
    _get_session_config ext s
      = (Returns (options,
                  Some [accelerator_provider (is_rocm_pytorch st);
                        "CPUExecutionProvider"],
                  provider_options), s).
Proof.
  intros Hst Hd Ht.
  assert (is_rocm_pytorch (settings (self s)) = is_rocm_pytorch st
          /\ _use_external_gpu_allocator (settings (self s))
             = _use_external_gpu_allocator st
          /\ (_use_external_gpu_allocator st = true ->
              _torch_alloc (settings (self s)) = Some alloc
              /\ _torch_free (settings (self s)) = Some free
              /\ _torch_empty_cache (settings (self s)) = Some empty_cache))
    as (Hrocm & Hext & Haddr).
  { rewrite Hst. unfold _get_torch_gpu_allocator_function_addresses.
    destruct (_use_external_gpu_allocator st) eqn:E; simpl; by rewrite ?E. }
  unfold _get_session_config. unfold_monad. simpl.
  rewrite Hd. simpl. rewrite Ht. simpl. rewrite Hrocm.
  destruct (is_rocm_pytorch st); simpl; rewrite Hext;
    destruct (_use_external_gpu_allocator st); simpl;
    try (destruct Haddr as (-> & -> & ->); [done|]; simpl);
    by eexists _, _.
Qed.

(** ** Pickling *)

Section PickleFacts.

Context {V : Type}.

Lemma del_items_returns (names : list string) (dict : gmap string V) :
  NoDup names ->
  (forall n, n ∈ names -> is_Some (dict !! n)) ->
  exists state,
    del_items names dict = Returns state /\
    forall k, state !! k = if decide (k ∈ names) then None else dict !! k.
Proof.
  intros Hnodup. revert dict.
  induction Hnodup as [|n names Hn _ IH]; intros dict Hall; simpl.
  - exists dict. split; [done|]. intros k.
    destruct (decide (k ∈ [])) as [Hk|_]; [by apply elem_of_nil in Hk|done].
  - destruct (Hall n) as [v Hv]; [set_solver|].
    unfold del_item. rewrite Hv.
    destruct (IH (delete n dict)) as (state & -> & Hstate).
    { intros m Hm. rewrite lookup_delete_ne by set_solver.
      apply Hall. set_solver. }
    exists state. split; [done|]. intros k. rewrite Hstate.
    destruct (decide (k ∈ names)) as [Hk|Hk];
      destruct (decide (k ∈ n :: names)) as [Hk'|Hk']; try done.
    + exfalso. apply Hk'. set_solver.
    + apply elem_of_cons in Hk' as [->|?]; [|done]. apply lookup_delete_eq.
    + apply lookup_delete_ne. set_solver.
Qed.

Lemma del_items_raises (present rest : list string) (missing : string)
    (dict : gmap string V) :
  NoDup present ->
  (forall n, n ∈ present -> is_Some (dict !! n)) ->
  dict !! missing = None ->
  del_items (present ++ missing :: rest) dict = Raises (KeyError missing).
Proof.
  intros Hnodup. revert dict.
  induction Hnodup as [|n names Hn _ IH]; intros dict Hall Hmiss; simpl.
  - unfold del_item. by rewrite Hmiss.
  - destruct (Hall n) as [v Hv]; [set_solver|].
    unfold del_item at 1. rewrite Hv. apply IH.
    + intros m Hm. rewrite lookup_delete_ne by set_solver.
      apply Hall. set_solver.
    + destruct (decide (n = missing)) as [->|];
        [apply lookup_delete_eq|by rewrite lookup_delete_ne].
Qed.

Lemma del_items_present (names : list string) (dict state : gmap string V) :
  del_items names dict = Returns state ->
  forall n, n ∈ names -> is_Some (dict !! n).
Proof.
  revert dict. induction names as [|m names IH]; intros dict; simpl.
  - intros _ n Hn. by apply elem_of_nil in Hn.
  - unfold del_item. destruct (dict !! m) as [v|] eqn:Hm; [|done].
    intros Hrest n Hn. apply elem_of_cons in Hn as [->|Hn]; [by eexists|].
    destruct (IH _ Hrest n Hn) as [w Hw].
    destruct (decide (m = n)) as [->|Hne].
    + by rewrite lookup_delete_eq in Hw.
    + rewrite lookup_delete_ne in Hw by done. by eexists.
Qed.

Lemma serialization_deny_list_NoDup : NoDup serialization_deny_list.
Proof.
  unfold serialization_deny_list.
  repeat (apply NoDup_cons; split;
          [rewrite ?elem_of_cons, ?elem_of_nil; intuition discriminate|]).
  apply NoDup_nil_2.
Qed.

Lemma getstate_lookup (dict state : gmap string V) :
  __getstate__ dict = Returns state ->
  forall k,
    state !! k
    = if decide (k ∈ serialization_deny_list) then None else dict !! k.
Proof.
  unfold __getstate__. intros Hstate.
  destruct (del_items_returns serialization_deny_list dict
              serialization_deny_list_NoDup
              (del_items_present _ _ _ Hstate)) as (state' & Hs & Hl).
  rewrite Hstate in Hs. by injection Hs as <-.
Qed.

(** X22. [__getstate__] returns exactly when every attribute of the deny
    list is in [self.__dict__]; the state it returns has none of them and
    has every other attribute with the value it has in [self.__dict__]. *)
Theorem getstate_returns (dict : gmap string V) :
  ((exists state, __getstate__ dict = Returns state) <->
   forall n, n ∈ serialization_deny_list -> is_Some (dict !! n)) /\
  (forall state,
     __getstate__ dict = Returns state ->
     forall k,
       state !! k
       = if decide (k ∈ serialization_deny_list) then None else dict !! k).
Proof.
  unfold __getstate__. split.
  - split.
    + intros [state Hstate]. by apply (del_items_present _ _ state).
    + intros Hall.
      destruct (del_items_returns serialization_deny_list dict
                  serialization_deny_list_NoDup Hall) as (state & Hs & _).
      by exists state.
  - intros state Hstate. by apply getstate_lookup.
Qed.

(** X23. When an attribute of the deny list is missing, [__getstate__]
    raises a [KeyError] for the first missing one in the order of the
    list.  A manager made where CUDA was not available has no
    [_torch_alloc]: pickling it raises [KeyError('_torch_alloc')] once the
    four attributes before it are there. *)
Theorem getstate_missing_attribute (dict : gmap string V) :
  (forall present missing rest,
     serialization_deny_list = (present ++ missing :: rest)%list ->
     (forall n, n ∈ present -> is_Some (dict !! n)) ->
     dict !! missing = None ->
     __getstate__ dict = Raises (KeyError missing)) /\
  (is_Some (dict !! "_onnx_models") -> is_Some (dict !! "_graph_builder") ->
   is_Some (dict !! "_graph_info") -> is_Some (dict !! "_execution_agent") ->
   dict !! "_torch_alloc" = None ->
   __getstate__ dict = Raises (KeyError "_torch_alloc")).
Proof.
  assert (forall present missing rest,
     serialization_deny_list = (present ++ missing :: rest)%list ->
     (forall n, n ∈ present -> is_Some (dict !! n)) ->
     dict !! missing = None ->
     __getstate__ dict = Raises (KeyError missing)) as H.
  { intros present missing rest Hlist Hall Hmiss.
    unfold __getstate__. rewrite Hlist. apply del_items_raises; [|done..].
    pose proof serialization_deny_list_NoDup as Hnd. rewrite Hlist in Hnd.
    by apply NoDup_app in Hnd as [? _]. }
  split; [exact H|].
  intros H1 H2 H3 H4 Hmiss.
  apply (H [ "_onnx_models"; "_graph_builder"; "_graph_info";
             "_execution_agent" ] "_torch_alloc"
           [ "_torch_free"; "_torch_empty_cache" ]); [done| |done].
  intros n. rewrite !elem_of_cons, elem_of_nil.
  intros [->|[->|[->|[->|[]]]]]; done.
Qed.

(** X24. Restoring a pickled state into a new object hands
    [reinitialize_graph_execution_manager] an object in which every
    attribute that was pickled has its pickled value, and in which the
    attributes of the deny list are those of the new object. *)
Theorem setstate_getstate
    (reinitialize : gmap string V -> gmap string V)
    (dict state fresh : gmap string V) :
  __getstate__ dict = Returns state ->
  exists restored,
    __setstate__ reinitialize fresh state = reinitialize restored /\
    forall k,
      restored !! k =
      if decide (k ∈ serialization_deny_list) then fresh !! k
      else match dict !! k with
           | Some v => Some v
           | None => fresh !! k
           end.
Proof.
  intros Hstate. eexists. split; [reflexivity|]. intros k.
  rewrite lookup_union.
  rewrite (getstate_lookup dict state Hstate k).
  destruct (decide (k ∈ serialization_deny_list)).
  - by destruct (fresh !! k).
  - by destruct (dict !! k), (fresh !! k).
Qed.

End PickleFacts.

(** ** The feature table *)

Lemma feature_line_returns (row : list string) :
  length row = 3%nat -> exists line, feature_line row = Returns line.
Proof.
  destruct row as [|a [|b [|c [|d row]]]]; try done. intros _.
  unfold feature_line. simpl. by eexists.
Qed.

Lemma feature_lines_returns (rows : list (list string)) (stat : string) :
  feature_rows_well_formed rows ->
  exists text, feature_lines stat rows = Returns text.
Proof.
  intros Hrows. revert stat.
  induction Hrows as [|row rows Hrow _ IH]; intros stat; simpl.
  - by eexists.
  - destruct (feature_line_returns row Hrow) as [line ->]. apply IH.
Qed.

Section FeatureStatsFacts.

Context {Schema : Type} `{!EqDecision Schema}.
Context {Inputs ModelProto Bytes RandomStates TorchModule Buffer
         Density : Type}.
Variable ext : @Externals Schema Inputs ModelProto Bytes RandomStates
                          TorchModule Buffer Density.

Abbreviation Store :=
  (@Store Schema ModelProto Bytes RandomStates TorchModule Buffer).

(** X25. On a rank other than zero [_log_feature_stats] logs nothing and
    leaves the feature table as it is. *)
Theorem log_feature_stats_other_ranks
    (env : LogEnvironment) (s : Store) (rank : Z) :
  distributed_rank env = Some rank -> rank <> 0 ->
  _log_feature_stats env s = (Returns None, s).
Proof.
  intros Hr Hne. unfold _log_feature_stats. rewrite Hr.
  apply Z.eqb_neq in Hne. by rewrite Hne.
Qed.

(** X26. On rank zero, or when [torch.distributed] is not initialized,
    and with a feature table whose rows have three entries,
    [_log_feature_stats] logs one text and appends the fallback row,
    which says [ON] exactly when the fallback policy is not the disabled
    one; so every call adds that row once more. *)
Theorem log_feature_stats_rank_zero (env : LogEnvironment) (s : Store) :
  distributed_rank env = None \/ distributed_rank env = Some 0 ->
  feature_rows_well_formed (_feature_map (self s)) ->
  exists stat state,
    _log_feature_stats env s
      = (Returns (Some stat),
         with_self
           (set_feature_map
              (_feature_map (self s)
               ++ [ ["Auto Fallback"; state;
                     "Fallback to PyTorch when encountering unsupported ops"] ])%list)
           s) /\
    (state = "ON" <-> fallback_disabled env = false) /\
    (state = "OFF" <-> fallback_disabled env = true).
Proof.
  intros Hrank Hrows. unfold _log_feature_stats.
  assert (match distributed_rank env with Some r => r | None => 0 end = 0)
    as -> by (by destruct Hrank as [-> | ->]).
  unfold_monad. simpl.
  match goal with
  | |- context [feature_lines ?stat ?rows] =>
      destruct (feature_lines_returns rows stat) as [text ->]
  end.
  { apply Forall_app. split; [done|]. by repeat constructor. }
  simpl. eexists _, _. split; [reflexivity|].
  by destruct (fallback_disabled env).
Qed.

(** X27. The rows of the feature table always have the three entries
    that [_log_feature_stats] reads: the table of [__init__] has them, and
    [_enable_conditional_optimizations] and [_log_feature_stats] keep
    them, whether they return or raise. *)
Theorem feature_table_stays_well_formed :
  (forall level memory_optimizer,
     feature_rows_well_formed (initial_feature_map level memory_optimizer)) /\
  (forall config inputs (s : Store),
     feature_rows_well_formed (_feature_map (self s)) ->
     feature_rows_well_formed
       (_feature_map
          (self (_enable_conditional_optimizations ext config inputs s).2))) /\
  (forall env (s : Store),
     feature_rows_well_formed (_feature_map (self s)) ->
     feature_rows_well_formed
       (_feature_map (self (_log_feature_stats env s).2))).
Proof.
  split_and!.
  - intros level memory_optimizer. by repeat constructor.
  - intros config inputs s Hrows.
    unfold _enable_conditional_optimizations, feature_rows_well_formed in *.
    unfold_monad. simpl.
    destruct (_enable_sparse_optimizer (settings (self s))),
             (_print_input_density (settings (self s))); simpl;
      destruct (_graph_builder (self s)) as [builder|]; simpl.
    all: try destruct (_combine_input_buffers_initializers _ _ _ _ _ _ _)
           as [[|e embed] [|l label]]; simpl.
    all: rewrite ?Forall_app; split_and?; try done; by repeat constructor.
  - intros env s Hrows. unfold _log_feature_stats.
    destruct (negb _); [done|]. unfold_monad. simpl.
    match goal with
    | |- context [feature_lines ?stat ?rows] =>
        destruct (feature_lines stat rows)
    end; simpl.
    all: apply Forall_app; split; [done|]; by repeat constructor.
Qed.

End FeatureStatsFacts.

(** ** The change signal over a run of calls *)

Section ChangeSignal.

Context {Schema : Type} `{!EqDecision Schema}.
Context {Inputs ModelProto Bytes RandomStates TorchModule Buffer
         Density : Type}.
Variable ext : @Externals Schema Inputs ModelProto Bytes RandomStates
                          TorchModule Buffer Density.

Abbreviation Store :=
  (@Store Schema ModelProto Bytes RandomStates TorchModule Buffer).

(** X12. [_export_model] never assigns the change signal: after
    [signal_model_changed], and whatever calls of [_export_model] have
    been made since, returning or raising, the signal is still set and
    the next call does not return [False]. *)
Theorem change_signal_outlives_exports
    (calls : list Inputs) (next : Inputs) (s : Store) :
  _original_model_has_changed
    (self (foldl (fun st inputs => (_export_model ext inputs st).2)
                 (signal_model_changed s).2 calls)) = true /\
  (_export_model ext next
     (foldl (fun st inputs => (_export_model ext inputs st).2)
            (signal_model_changed s).2 calls)).1 <> Returns false.
Proof.
  assert (forall st : Store,
            _original_model_has_changed (self st) = true ->
            _original_model_has_changed
              (self (foldl (fun st inputs => (_export_model ext inputs st).2)
                           st calls)) = true) as Hkeep.
  { induction calls as [|inputs calls IH]; intros st Hst; simpl; [done|].
    apply IH. by rewrite export_model_keeps_change_signal. }
  assert (_original_model_has_changed
            (self (foldl (fun st inputs => (_export_model ext inputs st).2)
                         (signal_model_changed s).2 calls)) = true) as Hset.
  { by apply Hkeep. }
  split; [done|]. apply export_model_cache_miss.
  unfold needs_export. rewrite Hset. apply orb_true_r.
Qed.

End ChangeSignal.

(** ** The properties above on the concrete managers *)

Lemma set_device_from_module_resolves_witness :
  _set_device_from_module Scenario.ext Scenario.rank2
      (Scenario.init_store (Some Scenario.cuda0) true false)
    = (Returns tt,
       with_self (set_device (Some Scenario.cuda0))
         (Scenario.init_store (Some Scenario.cuda0) true false)).
Proof.
  apply (proj1 (set_device_from_module_resolves Scenario.ext Scenario.rank2
                  (Scenario.init_store (Some Scenario.cuda0) true false))).
  reflexivity.
Defined.


Lemma clashing_exporter_argument_is_wrapped_witness :
  (exists msg,
     (_get_exported_model Scenario.ext 2 Scenario.rank2
        (Examples.store
           (Examples.settings_with (Some TRAINING) {[ "verbose" := "True" ]}
                                   false)
           (Some Scenario.cpu))).1
       = Raises (ORTModuleONNXModelException (RuntimeError msg))) /\
  trace (_get_exported_model Scenario.ext 2 Scenario.rank2
           (Examples.store
              (Examples.settings_with (Some TRAINING)
                                      {[ "verbose" := "True" ]} false)
              (Some Scenario.cpu))).2
    = [EvParseOutputs].
Proof.
  apply (clashing_exporter_argument_is_wrapped Scenario.ext 2 Scenario.rank2
           (Examples.store
              (Examples.settings_with (Some TRAINING)
                                      {[ "verbose" := "True" ]} false)
              (Some Scenario.cpu))
           ["y"] ∅ 2 43 TRAINING "verbose").
  - vm_compute. reflexivity.
  - reflexivity.
  - vm_compute. reflexivity.
  - vm_compute. by eexists.
Defined.

Lemma export_mode_is_asserted_witness :
  (_get_exported_model Scenario.ext 2 Scenario.rank2
     (Examples.store (Examples.settings_with None ∅ false)
                     (Some Scenario.cpu))).1
    = Raises (AssertionError
                "Please use a concrete instance of ExecutionManager").
Proof.
  apply (export_mode_is_asserted Scenario.ext 2 Scenario.rank2
           (Examples.store (Examples.settings_with None ∅ false)
                           (Some Scenario.cpu))
           ["y"] ∅ 2 43).
  - vm_compute. reflexivity.
  - reflexivity.
Defined.


Lemma export_model_returns_false_iff_witness :
  (_export_model Scenario.ext Scenario.rank2
     (Scenario.init_store (Some Scenario.cpu) true false)).1
    <> Returns false.
Proof.
  apply (proj2 (export_model_returns_false_iff Scenario.ext Scenario.rank2
                  (Scenario.init_store (Some Scenario.cpu) true false)
                  (Scenario.init_store (Some Scenario.cpu) true false))).
  reflexivity.
Defined.

Lemma export_model_returns_true_after_witness :
  random_states Scenario.exported_rank2 = 42 /\
  _device (self Scenario.exported_rank2) = Some Scenario.cpu /\
  exists kw,
    trace Scenario.exported_rank2
      = [EvInferShapes; EvExport kw ∅; EvParseOutputs].
Proof.
  destruct (export_model_returns_true_after Scenario.ext Scenario.rank2
              (Scenario.init_store (Some Scenario.cpu) true false)
              Scenario.exported_rank2)
    as (Hr & _ & _ & Hd & _ & kw & Htr).
  - vm_compute. reflexivity.
  - split; [exact Hr|]. split; [exact Hd|]. exists kw. exact Htr.
Defined.

Lemma shape_inference_failure_keeps_raw_export_witness :
  (_export_model (Examples.ext true false []) Scenario.rank2
     (Scenario.init_store (Some Scenario.cpu) true false)).1
    = Raises (External "Incomplete symbolic shape inference") /\
  exported_model
    (self (_export_model (Examples.ext true false []) Scenario.rank2
             (Scenario.init_store (Some Scenario.cpu) true false)).2)
    = Some ["x"; "w"; "b"] /\
  random_states
    (_export_model (Examples.ext true false []) Scenario.rank2
       (Scenario.init_store (Some Scenario.cpu) true false)).2 = 45 /\
  _export_model (Examples.ext true false []) Scenario.rank2
    (_export_model (Examples.ext true false []) Scenario.rank2
       (Scenario.init_store (Some Scenario.cpu) true false)).2
    = (Returns false,
       (_export_model (Examples.ext true false []) Scenario.rank2
          (Scenario.init_store (Some Scenario.cpu) true false)).2).
Proof.
  eapply (shape_inference_failure_keeps_raw_export
            (Examples.ext true false []) Scenario.rank2
            (Scenario.init_store (Some Scenario.cpu) true false)).
  - reflexivity.
  - reflexivity.
  - reflexivity.
  - vm_compute. reflexivity.
  - vm_compute. reflexivity.
  - vm_compute. reflexivity.
Defined.

Lemma initialize_graph_builder_returns_witness :
  exists cfg,
    _graph_builder (self (Scenario.built_rank2 true false))
      = Some {| gb_initialized := Some (["x"; "w"; "b"], cfg) |} /\
    initializer_names cfg `sublist_of` ["w"; "b"; "unused"] /\
    initializer_names_to_train cfg `sublist_of` initializer_names cfg /\
    length (_graph_initializers (self (Scenario.built_rank2 true false)))
      = length (initializer_names cfg).
Proof.
  destruct (initialize_graph_builder_returns Scenario.ext
              Scenario.exported_rank2 (Scenario.built_rank2 true false)
              ["x"; "w"; "b"] tt)
    as (cfg & Hb & Hn & Ht & _ & _ & _ & _ & Hl).
  - vm_compute. reflexivity.
  - vm_compute. reflexivity.
  - exists cfg. split; [exact Hb|]. split; [exact Hn|].
    split; [exact Ht|exact Hl].
Defined.



Lemma conditional_optimizations_without_builder_witness :
  (exists msg,
     (_enable_conditional_optimizations Scenario.ext
        Scenario.transformer_config Scenario.rank2
        Scenario.exported_rank2).1 = Raises (AttributeError msg)) /\
  _rt_inspector
    (self (_enable_conditional_optimizations Scenario.ext
             Scenario.transformer_config Scenario.rank2
             Scenario.exported_rank2).2)
    = _rt_inspector (self Scenario.exported_rank2) /\
  trace (_enable_conditional_optimizations Scenario.ext
           Scenario.transformer_config Scenario.rank2
           Scenario.exported_rank2).2 = trace Scenario.exported_rank2.
Proof.
  apply (conditional_optimizations_without_builder Scenario.ext
           Scenario.transformer_config Scenario.rank2
           Scenario.exported_rank2).
  - vm_compute. reflexivity.
  - left. reflexivity.
Defined.


Lemma session_config_cuda_options_witness :
  exists options providers provider_options gpu_options,
    (_get_session_config (Examples.ext false false [])
       (Scenario.on_device Scenario.cuda0)).1
      = Returns (options, providers, provider_options) /\
    provider_options = Some [gpu_options; []] /\
    gpu_options !! 0%nat = Some ("device_id", "0") /\
    gpu_options !! 1%nat = Some ("cudnn_conv_algo_search", "HEURISTIC").
Proof.
  destruct (_get_session_config (Examples.ext false false [])
              (Scenario.on_device Scenario.cuda0))
    as [[[[options providers] provider_options]|e] s'] eqn:Hcall;
    [|vm_compute in Hcall; discriminate].
  destruct (session_config_cuda_options (Examples.ext false false [])
              (Scenario.on_device Scenario.cuda0) Scenario.cuda0
              options providers provider_options)
    as (gpu_options & Hopts & Hid & Hsearch & _).
  - reflexivity.
  - reflexivity.
  - by rewrite Hcall.
  - exists options, providers, provider_options, gpu_options.
    split; [done|]. split; [exact Hopts|]. split; [exact Hid|].
    subst provider_options. vm_compute in Hcall.
    by injection Hcall as <- <- <- <-.
Defined.

Lemma session_config_failures_witness :
  (exists msg,
     _get_session_config Scenario.ext
       (Scenario.init_store None true false)
     = (Raises (AttributeError msg), Scenario.init_store None true false)) /\
  (exists msg,
     _get_session_config (Examples.ext false false [])
       (Scenario.on_device Scenario.ort0)
     = (Raises (AssertionError msg), Scenario.on_device Scenario.ort0)) /\
  (exists msg,
     _get_session_config Scenario.ext
       (Examples.store (Examples.settings_with (Some TRAINING) ∅ false)
                       (Some Scenario.cuda0))
     = (Raises (AttributeError msg),
        Examples.store (Examples.settings_with (Some TRAINING) ∅ false)
                       (Some Scenario.cuda0))).
Proof.
  split; [|split].
  - apply (proj1 (session_config_failures Scenario.ext
                    (Scenario.init_store None true false))).
    reflexivity.
  - apply (proj1 (proj2 (session_config_failures
                           (Examples.ext false false [])
                           (Scenario.on_device Scenario.ort0)))
             Scenario.ort0); [reflexivity..|]. simpl. discriminate.
  - apply (proj2 (proj2 (session_config_failures Scenario.ext
                           (Examples.store
                              (Examples.settings_with (Some TRAINING) ∅ false)
                              (Some Scenario.cuda0))))
             Scenario.cuda0); reflexivity.
Defined.

Lemma session_config_after_allocator_addresses_witness :
  exists options provider_options,
    _get_session_config Scenario.ext
      (Examples.store
         (_get_torch_gpu_allocator_function_addresses true 4096 8192 12288
            (Examples.settings_with (Some TRAINING) ∅ false))
         (Some Scenario.cuda0))
    = (Returns (options,
                Some ["CUDAExecutionProvider"; "CPUExecutionProvider"],
                provider_options),
       Examples.store
         (_get_torch_gpu_allocator_function_addresses true 4096 8192 12288
            (Examples.settings_with (Some TRAINING) ∅ false))
         (Some Scenario.cuda0)).
Proof.
  apply (session_config_after_allocator_addresses Scenario.ext
           (Examples.store
              (_get_torch_gpu_allocator_function_addresses true 4096 8192
                 12288 (Examples.settings_with (Some TRAINING) ∅ false))
              (Some Scenario.cuda0))
           (Examples.settings_with (Some TRAINING) ∅ false)
           4096 8192 12288 Scenario.cuda0); reflexivity.
Defined.

Lemma getstate_returns_witness :
  exists state,
    __getstate__ Examples.dict_with_cuda = Returns state /\
    state !! "_torch_alloc" = None /\
    state !! "_skip_check" = Some 14.
Proof.
  destruct (proj2 (proj1 (getstate_returns Examples.dict_with_cuda)))
    as [state Hstate].
  - intros n. unfold serialization_deny_list.
    rewrite !elem_of_cons, elem_of_nil.
    intros [->|[->|[->|[->|[->|[->|[->|[]]]]]]]]; vm_compute; by eexists.
  - exists state. split; [exact Hstate|].
    rewrite !(proj2 (getstate_returns Examples.dict_with_cuda) state Hstate).
    split; reflexivity.
Defined.

Lemma getstate_missing_attribute_witness :
  __getstate__ Examples.dict_without_cuda = Raises (KeyError "_torch_alloc").
Proof.
  apply (proj2 (getstate_missing_attribute Examples.dict_without_cuda));
    vm_compute; by eexists.
Defined.

Lemma setstate_getstate_witness :
  exists state restored,
    __getstate__ Examples.dict_with_cuda = Returns state /\
    __setstate__ id Examples.dict_without_cuda state = restored /\
    restored !! "_export_mode" = Some 2 /\
    restored !! "_torch_alloc" = None.
Proof.
  destruct (__getstate__ Examples.dict_with_cuda) as [state|e] eqn:Hstate;
    [|vm_compute in Hstate; discriminate].
  destruct (setstate_getstate id Examples.dict_with_cuda state
              Examples.dict_without_cuda Hstate) as (restored & Hr & Hl).
  exists state, restored. split; [done|]. split; [exact Hr|].
  rewrite !Hl. split; reflexivity.
Defined.

Lemma log_feature_stats_other_ranks_witness :
  _log_feature_stats (Examples.log_environment (Some 3))
      (Scenario.built_rank2 true false)
    = (Returns None, Scenario.built_rank2 true false).
Proof.
  apply (log_feature_stats_other_ranks
           (Examples.log_environment (Some 3))
           (Scenario.built_rank2 true false) 3); [reflexivity|discriminate].
Defined.

Lemma log_feature_stats_rank_zero_witness :
  exists stat state,
    _log_feature_stats (Examples.log_environment None)
      (Examples.store (Examples.settings_with (Some TRAINING) ∅ false)
                      (Some Scenario.cpu))
    = (Returns (Some stat),
       with_self
         (set_feature_map
            (initial_feature_map 1 ""
             ++ [ ["Auto Fallback"; state;
                   "Fallback to PyTorch when encountering unsupported ops"] ])%list)
         (Examples.store (Examples.settings_with (Some TRAINING) ∅ false)
                         (Some Scenario.cpu))) /\
    state = "ON".
Proof.
  destruct (log_feature_stats_rank_zero (Examples.log_environment None)
              (Examples.store (Examples.settings_with (Some TRAINING) ∅ false)
                              (Some Scenario.cpu)))
    as (stat & state & Hcall & Hon & _).
  - left. reflexivity.
  - repeat constructor.
  - exists stat, state. split; [exact Hcall|]. apply Hon. reflexivity.
Defined.

Lemma feature_table_stays_well_formed_witness :
  feature_rows_well_formed
    (_feature_map
       (self (_log_feature_stats (Examples.log_environment None)
                (_enable_conditional_optimizations Scenario.ext
                   Scenario.transformer_config Scenario.rank2
                   (Examples.store
                      (Examples.settings_with (Some TRAINING) ∅ false)
                      (Some Scenario.cpu))).2).2)).
Proof.
  apply (proj2 (proj2 (feature_table_stays_well_formed Scenario.ext))).
  apply (proj1 (proj2 (feature_table_stays_well_formed Scenario.ext))).
  apply (proj1 (feature_table_stays_well_formed Scenario.ext)).
Defined.
